(** * deck.gl Viewport: coordinate transformations between world and pixels

    A shallow embedding of the [Viewport] class (constructor, [_initMatrices],
    [equals], [project], [unproject] and the flat projection hooks) together
    with the matrix helpers it calls.

    JavaScript numbers are kept abstract behind the class [Number]; the
    development instantiates it twice:
    - [binary64], IEEE 754 double precision ([PrimFloat]), which is what the
      program computes with;
    - [exact], the rationals in canonical form ([Qc]), the arithmetic without
      rounding, overflow or NaN against which "approximately equal" statements
      are read. *)

From Stdlib Require Import Bool ZArith QArith Qcanon Field List String.
From Stdlib Require Import Floats.
From Stdlib Require Uint63.
Import ListNotations.

Set Implicit Arguments.

(** ** Numbers *)

Declare Scope js_scope.
Delimit Scope js_scope with js.

Class Number (num : Type) := {
  of_Z : Z -> num;
  add : num -> num -> num;
  sub : num -> num -> num;
  mul : num -> num -> num;
  div : num -> num -> num;
  neg : num -> num;
  (* [a === b] on two numbers *)
  strict_eq : num -> num -> bool;
  (* ToBoolean: what [x || d], [!x] and [if (x)] test *)
  truthy : num -> bool;
  (* Number.isFinite *)
  isFinite : num -> bool
}.

Notation "a + b" := (add a b) : js_scope.
Notation "a - b" := (sub a b) : js_scope.
Notation "a * b" := (mul a b) : js_scope.
Notation "a / b" := (div a b) : js_scope.
Notation "- a" := (neg a) : js_scope.
Notation "a === b" := (strict_eq a b) (at level 70, no associativity) : js_scope.

Definition zero {num} `{Number num} : num := of_Z 0.
Definition one {num} `{Number num} : num := of_Z 1.
Definition two {num} `{Number num} : num := of_Z 2.

(** A decimal literal such as [0.1]: the nearest number to the quotient. *)
Definition lit {num} `{Number num} (q : Q) : num :=
  div (of_Z (Qnum q)) (of_Z (Zpos (Qden q))).

(** [x || d] on numbers. *)
Definition or_default {num} `{Number num} (x : option num) (d : num) : num :=
  match x with
  | Some v => if truthy v then v else d
  | None => d
  end.

(** [Number.isFinite(x)] where [x] may be [null] or [undefined]. *)
Definition isFinite_opt {num} `{Number num} (x : option num) : bool :=
  match x with
  | Some v => isFinite v
  | None => false
  end.

(** *** IEEE 754 binary64 *)

Definition float_of_Z (z : Z) : float :=
  match z with
  | Z0 => PrimFloat.zero
  | Zpos _ => PrimFloat.of_uint63 (Uint63.of_Z z)
  | Zneg p => PrimFloat.opp (PrimFloat.of_uint63 (Uint63.of_Z (Zpos p)))
  end.

Definition float_truthy (f : float) : bool :=
  negb (PrimFloat.is_nan f || PrimFloat.eqb f PrimFloat.zero).

#[export] Instance binary64 : Number float := {
  of_Z := float_of_Z;
  add := PrimFloat.add;
  sub := PrimFloat.sub;
  mul := PrimFloat.mul;
  div := PrimFloat.div;
  neg := PrimFloat.opp;
  strict_eq := PrimFloat.eqb;
  truthy := float_truthy;
  isFinite := PrimFloat.is_finite
}.

(** *** Exact rationals *)

#[export] Instance exact : Number Qc := {
  of_Z := fun z => Q2Qc (inject_Z z);
  add := Qcplus;
  sub := Qcminus;
  mul := Qcmult;
  div := Qcdiv;
  neg := Qcopp;
  strict_eq := Qc_eq_bool;
  truthy := fun q => negb (Qc_eq_bool q (Q2Qc 0));
  isFinite := fun _ => true
}.

(** ** Vectors and 4x4 matrices

    Matrices are the 16-element column-major arrays of gl-matrix: element
    [i] is field [m<i>], and a local name [a<c><r>] in the definitions
    below is the entry of column [c], row [r]. *)

Record vec3 (num : Type) := Vec3 { v3_0 : num; v3_1 : num; v3_2 : num }.
Record vec4 (num : Type) :=
  Vec4 { v4_0 : num; v4_1 : num; v4_2 : num; v4_3 : num }.

Record mat4 (num : Type) := Mat4 {
  m0 : num; m1 : num; m2 : num; m3 : num;
  m4 : num; m5 : num; m6 : num; m7 : num;
  m8 : num; m9 : num; m10 : num; m11 : num;
  m12 : num; m13 : num; m14 : num; m15 : num
}.

(** A coordinate argument: the array [[x, y]] or [[x, y, z]]. *)
Inductive coord (num : Type) :=
| XY (x y : num)
| XYZ (x y z : num).

Arguments XY {num} x y.
Arguments XYZ {num} x y z.

Definition coord_length {num} (c : coord num) : nat :=
  match c with XY _ _ => 2 | XYZ _ _ _ => 3 end.

Definition coord_0 {num} (c : coord num) : num :=
  match c with XY x _ => x | XYZ x _ _ => x end.

Definition coord_1 {num} (c : coord num) : num :=
  match c with XY _ y => y | XYZ _ y _ => y end.

(** [c[2]], [undefined] on a two-element array. *)
Definition coord_2 {num} (c : coord num) : option num :=
  match c with XY _ _ => None | XYZ _ _ z => Some z end.

(** ** Outcomes of a call *)

Inductive error :=
| AssertionError (message : option string)
| TypeError.

Inductive result (A : Type) :=
| Return (a : A)
| Throw (e : error).

Arguments Return {A} a.
Arguments Throw {A} e.

Definition bind {A B} (r : result A) (k : A -> result B) : result B :=
  match r with
  | Return a => k a
  | Throw e => Throw e
  end.

Notation "x <- r ;; k" := (bind r (fun x => k))
  (at level 61, r at next level, right associativity).

(** [assert(cond, message)] *)
Definition assert (cond : bool) (message : option string) : result unit :=
  if cond then Return tt else Throw (AssertionError message).

Section Helpers.
Context {num : Type} `{Number num}.
Local Open Scope js_scope.

(** Modelled from the spec: [createMat4] of the math utilities, which is
    not under src/; a fresh identity matrix. *)
Definition createMat4 : mat4 num :=
  Mat4 one zero zero zero
       zero one zero zero
       zero zero one zero
       zero zero zero one.

(** Modelled from the spec: gl-mat4 [multiply(out, a, b)], the matrix
    product a x b, written out entry by entry in column-major order. *)
Definition mat4_multiply (a b : mat4 num) : mat4 num :=
  let 'Mat4 a00 a01 a02 a03 a10 a11 a12 a13
            a20 a21 a22 a23 a30 a31 a32 a33 := a in
  let col b0 b1 b2 b3 :=
    (b0 * a00 + b1 * a10 + b2 * a20 + b3 * a30,
     b0 * a01 + b1 * a11 + b2 * a21 + b3 * a31,
     b0 * a02 + b1 * a12 + b2 * a22 + b3 * a32,
     b0 * a03 + b1 * a13 + b2 * a23 + b3 * a33) in
  let '(o0, o1, o2, o3) := col (m0 b) (m1 b) (m2 b) (m3 b) in
  let '(o4, o5, o6, o7) := col (m4 b) (m5 b) (m6 b) (m7 b) in
  let '(o8, o9, o10, o11) := col (m8 b) (m9 b) (m10 b) (m11 b) in
  let '(o12, o13, o14, o15) := col (m12 b) (m13 b) (m14 b) (m15 b) in
  Mat4 o0 o1 o2 o3 o4 o5 o6 o7 o8 o9 o10 o11 o12 o13 o14 o15.

(** Modelled from the spec: gl-mat4 [scale(out, a, v)], a x diag(v, 1). *)
Definition mat4_scale (a : mat4 num) (v : vec3 num) : mat4 num :=
  let 'Vec3 x y z := v in
  Mat4 (m0 a * x) (m1 a * x) (m2 a * x) (m3 a * x)
       (m4 a * y) (m5 a * y) (m6 a * y) (m7 a * y)
       (m8 a * z) (m9 a * z) (m10 a * z) (m11 a * z)
       (m12 a) (m13 a) (m14 a) (m15 a).

(** Modelled from the spec: gl-mat4 [translate(out, a, v)], a x T(v);
    only the last column changes. *)
Definition mat4_translate (a : mat4 num) (v : vec3 num) : mat4 num :=
  let 'Vec3 x y z := v in
  Mat4 (m0 a) (m1 a) (m2 a) (m3 a)
       (m4 a) (m5 a) (m6 a) (m7 a)
       (m8 a) (m9 a) (m10 a) (m11 a)
       (m0 a * x + m4 a * y + m8 a * z + m12 a)
       (m1 a * x + m5 a * y + m9 a * z + m13 a)
       (m2 a * x + m6 a * y + m10 a * z + m14 a)
       (m3 a * x + m7 a * y + m11 a * z + m15 a).

(** Modelled from the spec: gl-mat4 [invert(out, a)], the inverse by
    cofactors; [null] when the determinant is falsy (zero or NaN). *)
Definition mat4_invert (a : mat4 num) : option (mat4 num) :=
  let 'Mat4 a00 a01 a02 a03 a10 a11 a12 a13
            a20 a21 a22 a23 a30 a31 a32 a33 := a in
  let b00 := a00 * a11 - a01 * a10 in
  let b01 := a00 * a12 - a02 * a10 in
  let b02 := a00 * a13 - a03 * a10 in
  let b03 := a01 * a12 - a02 * a11 in
  let b04 := a01 * a13 - a03 * a11 in
  let b05 := a02 * a13 - a03 * a12 in
  let b06 := a20 * a31 - a21 * a30 in
  let b07 := a20 * a32 - a22 * a30 in
  let b08 := a20 * a33 - a23 * a30 in
  let b09 := a21 * a32 - a22 * a31 in
  let b10 := a21 * a33 - a23 * a31 in
  let b11 := a22 * a33 - a23 * a32 in
  let det :=
    b00 * b11 - b01 * b10 + b02 * b09 + b03 * b08 - b04 * b07 + b05 * b06 in
  if negb (truthy det) then None
  else
    let det := one / det in
    Some (Mat4
      ((a11 * b11 - a12 * b10 + a13 * b09) * det)
      ((a02 * b10 - a01 * b11 - a03 * b09) * det)
      ((a31 * b05 - a32 * b04 + a33 * b03) * det)
      ((a22 * b04 - a21 * b05 - a23 * b03) * det)
      ((a12 * b08 - a10 * b11 - a13 * b07) * det)
      ((a00 * b11 - a02 * b08 + a03 * b07) * det)
      ((a32 * b02 - a30 * b05 - a33 * b01) * det)
      ((a20 * b05 - a22 * b02 + a23 * b01) * det)
      ((a10 * b10 - a11 * b08 + a13 * b06) * det)
      ((a01 * b08 - a00 * b10 - a03 * b06) * det)
      ((a30 * b04 - a31 * b02 + a33 * b00) * det)
      ((a21 * b02 - a20 * b04 - a23 * b00) * det)
      ((a11 * b07 - a10 * b09 - a12 * b06) * det)
      ((a00 * b09 - a01 * b07 + a02 * b06) * det)
      ((a31 * b01 - a30 * b03 - a32 * b00) * det)
      ((a20 * b03 - a21 * b01 + a22 * b00) * det)).

(** Modelled from the spec: gl-mat4 [perspective(out, fovy, aspect, near,
    far)], the standard symmetric perspective projection; [tan] is the
    platform's [Math.tan]. *)
Definition mat4_perspective (tan : num -> num)
    (fovy aspect near far : num) : mat4 num :=
  let f := one / tan (fovy / two) in
  let nf := one / (near - far) in
  Mat4 (f / aspect) zero zero zero
       zero f zero zero
       zero zero ((far + near) * nf) (- one)
       zero zero (two * far * near * nf) zero.

(** Modelled from the spec: gl-vec4 [transformMat4(out, a, m)], m x a. *)
Definition vec4_transformMat4 (a : vec4 num) (m : mat4 num) : vec4 num :=
  let 'Vec4 x y z w := a in
  Vec4 (m0 m * x + m4 m * y + m8 m * z + m12 m * w)
       (m1 m * x + m5 m * y + m9 m * z + m13 m * w)
       (m2 m * x + m6 m * y + m10 m * z + m14 m * w)
       (m3 m * x + m7 m * y + m11 m * z + m15 m * w).

(** Modelled from the spec: gl-vec2 [lerp(out, a, b, t)], the linear
    interpolation [a + t * (b - a)] of the first two components of its
    arguments. *)
Definition vec2_lerp (a b : vec4 num) (t : num) : coord num :=
  let ax := v4_0 a in
  let ay := v4_1 a in
  XY (ax + t * (v4_0 b - ax)) (ay + t * (v4_1 b - ay)).

Definition vec4_isFinite (v : vec4 num) : bool :=
  isFinite (v4_0 v) && isFinite (v4_1 v) &&
  isFinite (v4_2 v) && isFinite (v4_3 v).

(** Modelled from the spec: [transformVector(matrix, vector)] of the math
    utilities, which is not under src/.  It transforms a homogeneous
    vector by the matrix and normalizes the result by its fourth
    component.  The transform fails, with [null], when the matrix is
    absent and when the result is not normalizable (fourth component zero
    or NaN) or not finite. *)
Definition transformVector (matrix : option (mat4 num)) (vector : vec4 num)
  : option (vec4 num) :=
  match matrix with
  | None => None
  | Some m =>
      let result := vec4_transformMat4 vector m in
      let scale := one / v4_3 result in
      let normalized :=
        Vec4 (v4_0 result * scale) (v4_1 result * scale)
             (v4_2 result * scale) (v4_3 result * scale) in
      if truthy (v4_3 result) && vec4_isFinite normalized
      then Some normalized
      else None
  end.

End Helpers.

(** ** What the class takes from its platform and its packages

    [Math.PI], [Math.tan] and [Math.pow] are ECMAScript built-ins (the last
    two implementation-approximated); the three mercator functions come from
    the package viewport-mercator-project; [equals] and the [Matrix4] method
    [transformVector] from math.gl; [extractCameraVectors] from the math
    utilities of the repository, which are not under src/.  The mercator
    functions and [transformVector] check their arguments and may throw:
    they answer with a [result], and the constructor passes on what they
    throw. *)

Record DistanceScales (num : Type) := {
  pixelsPerMeter : vec3 num;
  metersPerPixel : vec3 num;
  pixelsPerDegree : vec3 num;
  degreesPerPixel : vec3 num
}.

Record CameraVectors (num : Type) := {
  eye : vec3 num;
  direction : vec3 num;
  up : vec3 num
}.

Record Platform (num : Type) := {
  Math_PI : num;
  Math_tan : num -> num;
  Math_pow : num -> num -> num;
  (* getMercatorMeterZoom({latitude}) *)
  getMercatorMeterZoom : num -> result num;
  (* getMercatorDistanceScales({latitude, longitude, scale}) *)
  getMercatorDistanceScales :
    num -> num -> num -> result (DistanceScales num);
  (* getMercatorWorldPosition({longitude, latitude, zoom, meterOffset}) *)
  getMercatorWorldPosition :
    num -> num -> num -> vec3 num -> result (vec3 num);
  (* equals(a, b) of math.gl on two matrices *)
  math_equals : mat4 num -> mat4 num -> bool;
  (* modelMatrix.transformVector(position) *)
  Matrix4_transformVector : mat4 num -> vec3 num -> result (vec3 num);
  (* extractCameraVectors({viewMatrix, viewMatrixInverse}) *)
  extractCameraVectors : mat4 num -> mat4 num -> CameraVectors num
}.

(** ** The constructor's option bag

    An absent field ([None]) is a property left out of [opts] or passed as
    [undefined], which is when a destructuring default applies.  The fields
    the constructor tests by truthiness or by [Number.isFinite] treat
    [null] the same way. *)

Module Opts.
Record t (num : Type) := {
  id : option string;
  x : option num;
  y : option num;
  width : option num;
  height : option num;
  viewMatrix : option (mat4 num);
  projectionMatrix : option (mat4 num);
  fovy : option num;
  near : option num;
  far : option num;
  longitude : option num;
  latitude : option num;
  zoom : option num;
  position : option (vec3 num);
  modelMatrix : option (mat4 num);
  distanceScales : option (DistanceScales num);
  focalDistance : option num
}.
End Opts.

Definition default {A} (o : option A) (d : A) : A :=
  match o with Some a => a | None => d end.

(** ** The Viewport class *)

Module Viewport.

Record t (num : Type) := {
  id : string;
  isGeospatial : bool;
  x : num;
  y : num;
  width : num;
  height : num;
  zoom : num;
  scale : num;
  distanceScales : DistanceScales num;
  focalDistance : num;
  position : vec3 num;
  modelMatrix : option (mat4 num);
  meterOffset : vec3 num;
  viewMatrixUncentered : mat4 num;
  center : option (vec3 num);
  viewMatrix : mat4 num;
  projectionMatrix : mat4 num;
  viewProjectionMatrix : mat4 num;
  viewMatrixInverse : mat4 num;
  cameraPosition : vec3 num;
  cameraDirection : vec3 num;
  cameraUp : vec3 num;
  pixelProjectionMatrix : mat4 num;
  (* [null] when the pixel projection matrix has no inverse *)
  pixelUnprojectionMatrix : option (mat4 num)
}.

(** What [_initMatrices] assigns to [this]. *)
Record Matrices (num : Type) := {
  i_viewProjectionMatrix : mat4 num;
  i_viewMatrixInverse : mat4 num;
  i_camera : CameraVectors num;
  i_pixelProjectionMatrix : mat4 num;
  i_pixelUnprojectionMatrix : option (mat4 num)
}.

(** A value passed to [equals]; only [VViewport] is an instance of the
    class. *)
Inductive value (num : Type) :=
| VUndefined
| VNull
| VNumber (n : num)
| VObject
| VViewport (v : t num).

Arguments VUndefined {num}.
Arguments VNull {num}.
Arguments VObject {num}.

(** The object [getMercatorParams] returns. *)
Record MercatorParams (num : Type) := {
  longitude : num;
  latitude : num
}.

(** The object [getMatrices] returns. *)
Record MatricesObject (num : Type) := {
  o_modelViewProjectionMatrix : mat4 num;
  o_viewProjectionMatrix : mat4 num;
  o_viewMatrix : mat4 num;
  o_projectionMatrix : mat4 num;
  o_pixelProjectionMatrix : mat4 num;
  o_pixelUnprojectionMatrix : option (mat4 num);
  o_width : num;
  o_height : num;
  o_scale : num
}.

Section Class.
Context {num : Type} `{Number num} (E : Platform num).
Local Open Scope js_scope.

Definition ZERO_VECTOR : vec3 num := Vec3 zero zero zero.

Definition IDENTITY : mat4 num := createMat4.

Definition UNIT_VECTOR : vec3 num := Vec3 one one one.

Definition DEFAULT_DISTANCE_SCALES : DistanceScales num :=
  Build_DistanceScales UNIT_VECTOR UNIT_VECTOR UNIT_VECTOR UNIT_VECTOR.

Definition DEFAULT_ZOOM : num := zero.

Definition ERR_ARGUMENT : string := "Illegal argument to Viewport".

Definition displayName : string := "Viewport".

Definition log_warn (message : string) : list string := [message].

(** [_initMatrices()]: the matrices derived from [this.viewMatrix],
    [this.projectionMatrix], [this.width] and [this.height], and the
    warnings logged on the way. *)
Definition _initMatrices (this_width this_height : num)
    (this_viewMatrix this_projectionMatrix : mat4 num)
  : Matrices num * list string :=
  let vpm := createMat4 in
  let vpm := mat4_multiply vpm this_projectionMatrix in
  let vpm := mat4_multiply vpm this_viewMatrix in
  let this_viewProjectionMatrix := vpm in
  let this_viewMatrixInverse :=
    default (mat4_invert this_viewMatrix) this_viewMatrix in
  let camera :=
    extractCameraVectors E this_viewMatrix this_viewMatrixInverse in
  let m := createMat4 in
  let m := mat4_scale m
             (Vec3 (this_width / two) (- this_height / two) one) in
  let m := mat4_translate m (Vec3 one (- one) zero) in
  let m := mat4_multiply m this_viewProjectionMatrix in
  let this_pixelProjectionMatrix := m in
  let this_pixelUnprojectionMatrix :=
    mat4_invert this_pixelProjectionMatrix in
  let log :=
    match this_pixelUnprojectionMatrix with
    | None => log_warn "Pixel project matrix not invertible"
    | Some _ => []
    end in
  (Build_Matrices this_viewProjectionMatrix this_viewMatrixInverse
     camera this_pixelProjectionMatrix this_pixelUnprojectionMatrix,
   log).

(** The geospatial anchor: latitude and longitude when both are finite
    numbers. *)
Definition anchor (opts : Opts.t num) : option (num * num) :=
  match Opts.latitude opts, Opts.longitude opts with
  | Some latitude, Some longitude =>
      if isFinite latitude && isFinite longitude
      then Some (latitude, longitude)
      else None
  | _, _ => None
  end.

(** [this.zoom] after the constructor has resolved it. *)
Definition resolve_zoom (opts : Opts.t num) : result num :=
  match Opts.zoom opts with
  | Some z =>
      if isFinite z then Return z
      else match anchor opts with
           | Some (latitude, _) => getMercatorMeterZoom E latitude
           | None => Return DEFAULT_ZOOM
           end
  | None =>
      match anchor opts with
      | Some (latitude, _) => getMercatorMeterZoom E latitude
      | None => Return DEFAULT_ZOOM
      end
  end.

Definition vec3_negate (v : vec3 num) : vec3 num :=
  Vec3 (- v3_0 v) (- v3_1 v) (- v3_2 v).

(** [new Viewport(opts)]: the instance and the warnings logged, or the
    exception thrown. *)
Definition constructor (opts : Opts.t num) : result (t num * list string) :=
  let this_id :=
    match Opts.id opts with
    | Some s => if String.eqb s "" then displayName else s
    | None => displayName
    end in
  let this_isGeospatial :=
    isFinite_opt (Opts.latitude opts) && isFinite_opt (Opts.longitude opts) in
  let this_x := default (Opts.x opts) zero in
  let this_y := default (Opts.y opts) zero in
  let this_width := or_default (Opts.width opts) one in
  let this_height := or_default (Opts.height opts) one in
  this_zoom <- resolve_zoom opts ;;
  let this_scale := Math_pow E two this_zoom in
  this_distanceScales <-
    match anchor opts with
    | Some (latitude, longitude) =>
        getMercatorDistanceScales E latitude longitude this_scale
    | None =>
        Return (default (Opts.distanceScales opts) DEFAULT_DISTANCE_SCALES)
    end ;;
  let this_focalDistance := or_default (Opts.focalDistance opts) one in
  (* [metersPerPixel] and [pixelsPerMeter] are then rewrapped as [Vector3]
     objects with the same components *)
  placed <-
    match Opts.position opts with
    | Some position =>
        meterOffset <-
          match Opts.modelMatrix opts with
          | Some modelMatrix =>
              Matrix4_transformVector E modelMatrix position
          | None => Return position
          end ;;
        Return (position, Opts.modelMatrix opts, meterOffset)
    | None => Return (ZERO_VECTOR, None, ZERO_VECTOR)
    end ;;
  let '(this_position, this_modelMatrix, this_meterOffset) := placed in
  let this_viewMatrixUncentered := default (Opts.viewMatrix opts) IDENTITY in
  centered <-
    match anchor opts with
    | Some (latitude, longitude) =>
        center <- getMercatorWorldPosition E longitude latitude this_zoom
                    this_meterOffset ;;
        Return
          (Some center,
           mat4_translate
             (mat4_scale
                (mat4_multiply createMat4 this_viewMatrixUncentered)
                (Vec3 one (- one) one))
             (vec3_negate center))
    | None => Return (Opts.position opts, this_viewMatrixUncentered)
    end ;;
  let '(this_center, this_viewMatrix) := centered in
  this_projectionMatrix <-
    match Opts.projectionMatrix opts with
    | Some projectionMatrix => Return projectionMatrix
    | None =>
        let fovy := default (Opts.fovy opts) (of_Z 75) in
        let near := default (Opts.near opts) (lit (1 # 10)) in
        let far := default (Opts.far opts) (of_Z 1000) in
        _ <- assert (isFinite fovy) None ;;
        let DEGREES_TO_RADIANS := Math_PI E / of_Z 180 in
        let fovyRadians := fovy * DEGREES_TO_RADIANS in
        let aspect := this_width / this_height in
        Return (mat4_perspective (Math_tan E) fovyRadians aspect near far)
    end ;;
  let '(ms, log) :=
    _initMatrices this_width this_height this_viewMatrix
      this_projectionMatrix in
  Return
    (Build_t this_id this_isGeospatial this_x this_y this_width
       this_height this_zoom this_scale this_distanceScales
       this_focalDistance this_position this_modelMatrix this_meterOffset
       this_viewMatrixUncentered this_center this_viewMatrix
       this_projectionMatrix
       (i_viewProjectionMatrix ms) (i_viewMatrixInverse ms)
       (eye (i_camera ms)) (direction (i_camera ms)) (up (i_camera ms))
       (i_pixelProjectionMatrix ms) (i_pixelUnprojectionMatrix ms),
     log).

(** [equals(viewport)] *)
Definition equals (this : t num) (viewport : value num) : bool :=
  match viewport with
  | VViewport viewport =>
      (width viewport === width this) &&
      (height viewport === height this) &&
      math_equals E (projectionMatrix viewport) (projectionMatrix this) &&
      math_equals E (viewMatrix viewport) (viewMatrix this)
  | _ => false
  end.

(** The hooks for the non-linear part of a projection; [scale] is the
    optional second argument. *)
Definition _projectFlat (this : t num) (xyz : coord num)
    (scale : option num) : coord num :=
  xyz.

Definition _unprojectFlat (this : t num) (xyz : coord num)
    (scale : option num) : coord num :=
  xyz.

Definition projectFlat (this : t num) (xy : coord num)
    (scale : option num) : coord num :=
  _projectFlat this xy scale.

Definition unprojectFlat (this : t num) (xyz : coord num)
    (scale : option num) : coord num :=
  _unprojectFlat this xyz scale.

(** [project(xyz, {topLeft})] *)
Definition project (this : t num) (xyz : coord num) (topLeft : bool)
  : result (coord num) :=
  let x0 := coord_0 xyz in
  let y0 := coord_1 xyz in
  let z0 := default (coord_2 xyz) zero in
  _ <- assert (isFinite x0 && isFinite y0 && isFinite z0)
         (Some ERR_ARGUMENT) ;;
  let flat := projectFlat this (XY x0 y0) None in
  let X := coord_0 flat in
  let Y := coord_1 flat in
  match transformVector (Some (pixelProjectionMatrix this))
          (Vec4 X Y z0 one) with
  | None => Throw TypeError (* destructuring [null] *)
  | Some v =>
      let x := v4_0 v in
      let y := v4_1 v in
      let y2 := if topLeft then height this - y else y in
      Return match xyz with
             | XY _ _ => XY x y2
             | XYZ _ _ _ => XYZ x y2 zero
             end
  end.

(** [unproject(xyz, {topLeft})]; [None] is the [null] result. *)
Definition unproject (this : t num) (xyz : coord num) (topLeft : bool)
  : result (option (coord num)) :=
  let x := coord_0 xyz in
  let y := coord_1 xyz in
  let targetZ := default (coord_2 xyz) zero in
  let y2 := if topLeft then height this - y else y in
  let coord0 :=
    transformVector (pixelUnprojectionMatrix this) (Vec4 x y2 zero one) in
  let coord1 :=
    transformVector (pixelUnprojectionMatrix this) (Vec4 x y2 one one) in
  match coord0, coord1 with
  | Some coord0, Some coord1 =>
      let z0 := v4_2 coord0 in
      let z1 := v4_2 coord1 in
      let t := if z0 === z1 then zero else (targetZ - z0) / (z1 - z0) in
      let v := vec2_lerp coord0 coord1 t in
      let vUnprojected := unprojectFlat this v None in
      Return (Some match xyz with
                   | XY _ _ => vUnprojected
                   | XYZ _ _ _ =>
                       XYZ (coord_0 vUnprojected) (coord_1 vUnprojected) zero
                   end)
  | _, _ => Return None
  end.

(** An array of three numbers read as a coordinate argument. *)
Definition coord_of_vec3 (v : vec3 num) : coord num :=
  XYZ (v3_0 v) (v3_1 v) (v3_2 v).

(** [_metersToLngLatDelta(xyz)] *)
Definition _metersToLngLatDelta (this : t num) (xyz : coord num)
  : result (coord num) :=
  let x := coord_0 xyz in
  let y := coord_1 xyz in
  let z := default (coord_2 xyz) zero in
  _ <- assert (isFinite x && isFinite y && isFinite z)
         (Some ERR_ARGUMENT) ;;
  let pixelsPerMeter := pixelsPerMeter (distanceScales this) in
  let degreesPerPixel := degreesPerPixel (distanceScales this) in
  let deltaLng := x * v3_0 pixelsPerMeter * v3_0 degreesPerPixel in
  let deltaLat := y * v3_1 pixelsPerMeter * v3_1 degreesPerPixel in
  Return match xyz with
         | XY _ _ => XY deltaLng deltaLat
         | XYZ _ _ _ => XYZ deltaLng deltaLat z
         end.

(** [_addMetersToLngLat(lngLatZ, xyz)] *)
Definition _addMetersToLngLat (this : t num) (lngLatZ xyz : coord num)
  : result (coord num) :=
  let lng := coord_0 lngLatZ in
  let lat := coord_1 lngLatZ in
  let Z := default (coord_2 lngLatZ) zero in
  delta <- _metersToLngLatDelta this xyz ;;
  let deltaLng := coord_0 delta in
  let deltaLat := coord_1 delta in
  let deltaZ := default (coord_2 delta) zero in
  Return match lngLatZ with
         | XY _ _ => XY (lng + deltaLng) (lat + deltaLat)
         | XYZ _ _ _ => XYZ (lng + deltaLng) (lat + deltaLat) (Z + deltaZ)
         end.

(** [getMercatorParams()].  The constructor assigns neither
    [this.longitude] nor [this.latitude], so on an instance of this class
    both read as [undefined]. *)
Definition getMercatorParams (this : t num) : result (MercatorParams num) :=
  let this_longitude : option num := None in
  let this_latitude : option num := None in
  lngLat <- _addMetersToLngLat this
              (XY (or_default this_longitude zero)
                  (or_default this_latitude zero))
              (coord_of_vec3 (meterOffset this)) ;;
  Return {| longitude := coord_0 lngLat; latitude := coord_1 lngLat |}.

(** [isMapSynched()] *)
Definition isMapSynched (this : t num) : bool := false.

(** [getDistanceScales()] *)
Definition getDistanceScales (this : t num) : DistanceScales num :=
  distanceScales this.

(** [getMatrices({modelMatrix})] *)
Definition getMatrices (this : t num) (modelMatrix : option (mat4 num))
  : MatricesObject num :=
  let '(modelViewProjectionMatrix, pixelProjectionMatrix,
        pixelUnprojectionMatrix) :=
    match modelMatrix with
    | Some modelMatrix =>
        let pixelProjectionMatrix :=
          mat4_multiply (pixelProjectionMatrix this) modelMatrix in
        (mat4_multiply (viewProjectionMatrix this) modelMatrix,
         pixelProjectionMatrix,
         mat4_invert pixelProjectionMatrix)
    | None =>
        (viewProjectionMatrix this, pixelProjectionMatrix this,
         pixelUnprojectionMatrix this)
    end in
  {| o_modelViewProjectionMatrix := modelViewProjectionMatrix;
     o_viewProjectionMatrix := viewProjectionMatrix this;
     o_viewMatrix := viewMatrix this;
     o_projectionMatrix := projectionMatrix this;
     o_pixelProjectionMatrix := pixelProjectionMatrix;
     o_pixelUnprojectionMatrix := pixelUnprojectionMatrix;
     o_width := width this;
     o_height := height this;
     o_scale := scale this |}.

(** [getCameraPosition()], [getCameraDirection()] and [getCameraUp()] *)
Definition getCameraPosition (this : t num) : vec3 num := cameraPosition this.

Definition getCameraDirection (this : t num) : vec3 num :=
  cameraDirection this.

Definition getCameraUp (this : t num) : vec3 num := cameraUp this.

End Class.
End Viewport.

(** ** Method calls

    A call of a method on an instance, with its arguments, and what the
    method answers. *)

Inductive call (num : Type) :=
| call_equals (viewport : Viewport.value num)
| call_project (xyz : coord num) (topLeft : bool)
| call_unproject (xyz : coord num) (topLeft : bool)
| call_projectFlat (xy : coord num) (scale : option num)
| call_unprojectFlat (xyz : coord num) (scale : option num)
| call_getMercatorParams
| call_isMapSynched
| call_getDistanceScales
| call_getMatrices (modelMatrix : option (mat4 num))
| call_getCameraPosition
| call_getCameraDirection
| call_getCameraUp
| call_addMetersToLngLat (lngLatZ xyz : coord num)
| call_metersToLngLatDelta (xyz : coord num).

Arguments call_getMercatorParams {num}.
Arguments call_isMapSynched {num}.
Arguments call_getDistanceScales {num}.
Arguments call_getCameraPosition {num}.
Arguments call_getCameraDirection {num}.
Arguments call_getCameraUp {num}.

Inductive answer (num : Type) :=
| answer_bool (b : bool)
| answer_pixel (r : result (coord num))
| answer_point (r : result (option (coord num)))
| answer_flat (c : coord num)
| answer_params (r : result (Viewport.MercatorParams num))
| answer_scales (d : DistanceScales num)
| answer_matrices (m : Viewport.MatricesObject num)
| answer_vector (v : vec3 num).

Arguments answer_bool {num} b.

Unset Implicit Arguments.

(** ** Notions used to state the properties *)

Section Derived.
Context {num : Type} `{Number num}.
Local Open Scope js_scope.

(** The offset in meters the constructor asks for: the position, passed
    through [modelMatrix.transformVector] when there is a model matrix. *)
Definition offset_call (E : Platform num) (opts : Opts.t num)
  : result (vec3 num) :=
  match Opts.position opts, Opts.modelMatrix opts with
  | Some position, Some modelMatrix =>
      Matrix4_transformVector E modelMatrix position
  | Some position, None => Return position
  | None, _ => Return Viewport.ZERO_VECTOR
  end.

(** The calls the constructor makes to the mercator package and to
    [modelMatrix.transformVector], read off the options: in the order the
    constructor makes them and with the arguments it passes.  With a finite
    latitude and longitude these are the default zoom (unless a finite zoom
    is given), the distance scales, the offset and the world position of
    the centre; otherwise the offset alone.  The first exception is the
    result, [tt] when every call returns. *)
Definition package_calls (E : Platform num) (opts : Opts.t num)
  : result unit :=
  match Opts.latitude opts, Opts.longitude opts with
  | Some latitude, Some longitude =>
      if isFinite latitude && isFinite longitude then
        zoom <- match Opts.zoom opts with
                | Some z =>
                    if isFinite z then Return z
                    else getMercatorMeterZoom E latitude
                | None => getMercatorMeterZoom E latitude
                end ;;
        _ <- getMercatorDistanceScales E latitude longitude
               (Math_pow E two zoom) ;;
        meterOffset <- offset_call E opts ;;
        _ <- getMercatorWorldPosition E longitude latitude zoom
               meterOffset ;;
        Return tt
      else _ <- offset_call E opts ;; Return tt
  | _, _ => _ <- offset_call E opts ;; Return tt
  end.

(** What a call answers and the instance it leaves behind.  No method of
    the class assigns to a property of [this]: the instance after the call
    is the instance before it. *)
Definition invoke (E : Platform num) (this : Viewport.t num)
    (c : call num) : Viewport.t num * answer num :=
  match c with
  | call_equals viewport =>
      (this, answer_bool (Viewport.equals E this viewport))
  | call_project xyz topLeft =>
      (this, answer_pixel (Viewport.project this xyz topLeft))
  | call_unproject xyz topLeft =>
      (this, answer_point (Viewport.unproject this xyz topLeft))
  | call_projectFlat xy scale =>
      (this, answer_flat (Viewport.projectFlat this xy scale))
  | call_unprojectFlat xyz scale =>
      (this, answer_flat (Viewport.unprojectFlat this xyz scale))
  | call_getMercatorParams =>
      (this, answer_params (Viewport.getMercatorParams this))
  | call_isMapSynched =>
      (this, answer_bool (Viewport.isMapSynched this))
  | call_getDistanceScales =>
      (this, answer_scales (Viewport.getDistanceScales this))
  | call_getMatrices modelMatrix =>
      (this, answer_matrices (Viewport.getMatrices this modelMatrix))
  | call_getCameraPosition =>
      (this, answer_vector (Viewport.getCameraPosition this))
  | call_getCameraDirection =>
      (this, answer_vector (Viewport.getCameraDirection this))
  | call_getCameraUp =>
      (this, answer_vector (Viewport.getCameraUp this))
  | call_addMetersToLngLat lngLatZ xyz =>
      (this, answer_pixel (Viewport._addMetersToLngLat this lngLatZ xyz))
  | call_metersToLngLatDelta xyz =>
      (this, answer_pixel (Viewport._metersToLngLatDelta this xyz))
  end.

(** The instance after a sequence of method calls. *)
Fixpoint lifetime (E : Platform num) (this : Viewport.t num)
    (calls : list (call num)) : Viewport.t num :=
  match calls with
  | [] => this
  | c :: calls => lifetime E (fst (invoke E this c)) calls
  end.

(** The two endpoints [coord0] and [coord1] that [unproject] computes,
    when both transforms succeed. *)
Definition ray (this : Viewport.t num) (xyz : coord num) (topLeft : bool)
  : option (vec4 num * vec4 num) :=
  let y2 := if topLeft then Viewport.height this - coord_1 xyz
            else coord_1 xyz in
  match transformVector (Viewport.pixelUnprojectionMatrix this)
          (Vec4 (coord_0 xyz) y2 zero one),
        transformVector (Viewport.pixelUnprojectionMatrix this)
          (Vec4 (coord_0 xyz) y2 one one) with
  | Some coord0, Some coord1 => Some (coord0, coord1)
  | _, _ => None
  end.

(** The array [unproject] returns for the interpolated point [v]: [v]
    itself for a two-element input, [v] with a zero [z] otherwise. *)
Definition shaped_like (xyz v : coord num) : coord num :=
  match xyz with
  | XY _ _ => v
  | XYZ _ _ _ => XYZ (coord_0 v) (coord_1 v) zero
  end.

(** [this.distanceScales] replaced, every other field kept. *)
Definition with_distanceScales (ds : DistanceScales num)
    (v : Viewport.t num) : Viewport.t num :=
  {| Viewport.id := Viewport.id v;
     Viewport.isGeospatial := Viewport.isGeospatial v;
     Viewport.x := Viewport.x v;
     Viewport.y := Viewport.y v;
     Viewport.width := Viewport.width v;
     Viewport.height := Viewport.height v;
     Viewport.zoom := Viewport.zoom v;
     Viewport.scale := Viewport.scale v;
     Viewport.distanceScales := ds;
     Viewport.focalDistance := Viewport.focalDistance v;
     Viewport.position := Viewport.position v;
     Viewport.modelMatrix := Viewport.modelMatrix v;
     Viewport.meterOffset := Viewport.meterOffset v;
     Viewport.viewMatrixUncentered := Viewport.viewMatrixUncentered v;
     Viewport.center := Viewport.center v;
     Viewport.viewMatrix := Viewport.viewMatrix v;
     Viewport.projectionMatrix := Viewport.projectionMatrix v;
     Viewport.viewProjectionMatrix := Viewport.viewProjectionMatrix v;
     Viewport.viewMatrixInverse := Viewport.viewMatrixInverse v;
     Viewport.cameraPosition := Viewport.cameraPosition v;
     Viewport.cameraDirection := Viewport.cameraDirection v;
     Viewport.cameraUp := Viewport.cameraUp v;
     Viewport.pixelProjectionMatrix := Viewport.pixelProjectionMatrix v;
     Viewport.pixelUnprojectionMatrix := Viewport.pixelUnprojectionMatrix v |}.

(** The change of the pixel's [y] between the two origin conventions of
    the [topLeft] option. *)
Definition coord_flip_y (height : num) (c : coord num) : coord num :=
  match c with
  | XY x y => XY x (height - y)
  | XYZ x y z => XYZ x (height - y) z
  end.

(** The first two components of [c], followed by a zero. *)
Definition coord_xy0 (c : coord num) : coord num :=
  XYZ (coord_0 c) (coord_1 c) zero.

(** The sum of two offsets given as three-element arrays. *)
Definition coord_add3 (a b : vec3 num) : vec3 num :=
  Vec3 (v3_0 a + v3_0 b) (v3_1 a + v3_1 b) (v3_2 a + v3_2 b).

(** The option bag [o] with other [fovy], [near] and [far]. *)
Definition with_perspective (fovy near far : option num)
    (o : Opts.t num) : Opts.t num :=
  {| Opts.id := Opts.id o;
     Opts.x := Opts.x o;
     Opts.y := Opts.y o;
     Opts.width := Opts.width o;
     Opts.height := Opts.height o;
     Opts.viewMatrix := Opts.viewMatrix o;
     Opts.projectionMatrix := Opts.projectionMatrix o;
     Opts.fovy := fovy;
     Opts.near := near;
     Opts.far := far;
     Opts.longitude := Opts.longitude o;
     Opts.latitude := Opts.latitude o;
     Opts.zoom := Opts.zoom o;
     Opts.position := Opts.position o;
     Opts.modelMatrix := Opts.modelMatrix o;
     Opts.distanceScales := Opts.distanceScales o;
     Opts.focalDistance := Opts.focalDistance o |}.

(** The option bag [o] with another [modelMatrix]. *)
Definition with_modelMatrix (modelMatrix : option (mat4 num))
    (o : Opts.t num) : Opts.t num :=
  {| Opts.id := Opts.id o;
     Opts.x := Opts.x o;
     Opts.y := Opts.y o;
     Opts.width := Opts.width o;
     Opts.height := Opts.height o;
     Opts.viewMatrix := Opts.viewMatrix o;
     Opts.projectionMatrix := Opts.projectionMatrix o;
     Opts.fovy := Opts.fovy o;
     Opts.near := Opts.near o;
     Opts.far := Opts.far o;
     Opts.longitude := Opts.longitude o;
     Opts.latitude := Opts.latitude o;
     Opts.zoom := Opts.zoom o;
     Opts.position := Opts.position o;
     Opts.modelMatrix := modelMatrix;
     Opts.distanceScales := Opts.distanceScales o;
     Opts.focalDistance := Opts.focalDistance o |}.

(** The option bag [o] with other [distanceScales]. *)
Definition with_scales (distanceScales : option (DistanceScales num))
    (o : Opts.t num) : Opts.t num :=
  {| Opts.id := Opts.id o;
     Opts.x := Opts.x o;
     Opts.y := Opts.y o;
     Opts.width := Opts.width o;
     Opts.height := Opts.height o;
     Opts.viewMatrix := Opts.viewMatrix o;
     Opts.projectionMatrix := Opts.projectionMatrix o;
     Opts.fovy := Opts.fovy o;
     Opts.near := Opts.near o;
     Opts.far := Opts.far o;
     Opts.longitude := Opts.longitude o;
     Opts.latitude := Opts.latitude o;
     Opts.zoom := Opts.zoom o;
     Opts.position := Opts.position o;
     Opts.modelMatrix := Opts.modelMatrix o;
     Opts.distanceScales := distanceScales;
     Opts.focalDistance := Opts.focalDistance o |}.

End Derived.

(** ** Platforms for the examples

    The two platforms below supply the functions of [Platform] for the
    concrete viewports of this file, all of them non-geospatial.  What a
    JavaScript engine computes by approximation is tabulated at the
    arguments those viewports reach; the mercator package, reached from
    geospatial options only, is not modelled. *)

Module Js.
Local Open Scope float_scope.

(** [Math.PI] *)
Definition PI : float := 0x1.921fb54442d18p+1.

(** [Math.tan], at half the default field of view of 75 degrees: the
    double nearest to the tangent of that argument. *)
Definition tan (a : float) : float :=
  if a =? 0x1.4f1a6c638d03fp-1 then 0x1.88df153d6a676p-1 else nan.

(** [Math.pow], at the exponents 0 and 1. *)
Definition pow (b e : float) : float :=
  if e =? 0 then 1 else if e =? 1 then b else nan.

Definition max (a b : float) : float := if a <? b then b else a.

(** [equals] of math.gl on numbers: within 1e-12, relative to the larger
    magnitude above 1. *)
Definition number_equals (a b : float) : bool :=
  abs (a - b) <=? 0x1.19799812dea11p-40 * max 1 (max (abs a) (abs b)).

Definition mat4_list (a : mat4 float) : list float :=
  [m0 a; m1 a; m2 a; m3 a; m4 a; m5 a; m6 a; m7 a;
   m8 a; m9 a; m10 a; m11 a; m12 a; m13 a; m14 a; m15 a].

Definition equals (a b : mat4 float) : bool :=
  forallb (fun p => number_equals (fst p) (snd p))
    (combine (mat4_list a) (mat4_list b)).

(** The mercator package is not modelled: its results are NaN here. *)
Definition unmodelled_scales : DistanceScales float :=
  Build_DistanceScales (Vec3 nan nan nan) (Vec3 nan nan nan)
    (Vec3 nan nan nan) (Vec3 nan nan nan).

Definition transformVector3 (m : mat4 float) (v : vec3 float) : vec3 float :=
  let r := vec4_transformMat4 (Vec4 (v3_0 v) (v3_1 v) (v3_2 v) 1) m in
  Vec3 (v4_0 r / v4_3 r) (v4_1 r / v4_3 r) (v4_2 r / v4_3 r).

Definition cameraVectors (viewMatrix viewMatrixInverse : mat4 float)
  : CameraVectors float :=
  {| eye := Vec3 (m12 viewMatrixInverse) (m13 viewMatrixInverse)
                 (m14 viewMatrixInverse);
     direction := Vec3 (m2 viewMatrix) (m6 viewMatrix) (m10 viewMatrix);
     up := Vec3 (m1 viewMatrix) (m5 viewMatrix) (m9 viewMatrix) |}.

Definition platform : Platform float := {|
  Math_PI := PI;
  Math_tan := tan;
  Math_pow := pow;
  getMercatorMeterZoom := fun _ => Return nan;
  getMercatorDistanceScales := fun _ _ _ => Return unmodelled_scales;
  getMercatorWorldPosition := fun _ _ _ _ => Return (Vec3 nan nan nan);
  math_equals := equals;
  Matrix4_transformVector := fun m v => Return (transformVector3 m v);
  extractCameraVectors := cameraVectors
|}.

(** [{width, height, viewMatrix, projectionMatrix}] *)
Definition opts (width height : option float)
    (viewMatrix projectionMatrix : option (mat4 float)) : Opts.t float :=
  {| Opts.id := None; Opts.x := None; Opts.y := None;
     Opts.width := width; Opts.height := height;
     Opts.viewMatrix := viewMatrix;
     Opts.projectionMatrix := projectionMatrix;
     Opts.fovy := None; Opts.near := None; Opts.far := None;
     Opts.longitude := None; Opts.latitude := None; Opts.zoom := None;
     Opts.position := None; Opts.modelMatrix := None;
     Opts.distanceScales := None; Opts.focalDistance := None |}.

(** Within the tolerance of 1e-6 the specification suggests. *)
Definition approx (a b : float) : bool :=
  abs (a - b) <=? 0x1.0c6f7a0b5ed8dp-20.

Definition approx_coord (p q : coord float) : bool :=
  match p, q with
  | XY a b, XY c d => approx a c && approx b d
  | XYZ a b c, XYZ d e f => approx a d && approx b e && approx c f
  | _, _ => false
  end.
End Js.

Module Exact.
Local Open Scope Qc_scope.

(** Powers with an integral exponent; no other power is rational in
    general. *)
Definition pow (b e : Qc) : Qc :=
  match this e with
  | Qmake (Zpos n) 1 => Qcpower b (Pos.to_nat n)
  | Qmake (Zneg n) 1 => / Qcpower b (Pos.to_nat n)
  | Qmake Z0 _ => 1
  | _ => 0
  end.

Definition mat4_list (a : mat4 Qc) : list Qc :=
  [m0 a; m1 a; m2 a; m3 a; m4 a; m5 a; m6 a; m7 a;
   m8 a; m9 a; m10 a; m11 a; m12 a; m13 a; m14 a; m15 a].

Definition equals (a b : mat4 Qc) : bool :=
  forallb (fun p => Qc_eq_bool (fst p) (snd p))
    (combine (mat4_list a) (mat4_list b)).

Definition unit_scales : DistanceScales Qc :=
  Build_DistanceScales (Vec3 1 1 1) (Vec3 1 1 1) (Vec3 1 1 1) (Vec3 1 1 1).

Definition transformVector3 (m : mat4 Qc) (v : vec3 Qc) : vec3 Qc :=
  let r := vec4_transformMat4 (Vec4 (v3_0 v) (v3_1 v) (v3_2 v) 1) m in
  Vec3 (v4_0 r / v4_3 r) (v4_1 r / v4_3 r) (v4_2 r / v4_3 r).

Definition cameraVectors (viewMatrix viewMatrixInverse : mat4 Qc)
  : CameraVectors Qc :=
  {| eye := Vec3 (m12 viewMatrixInverse) (m13 viewMatrixInverse)
                 (m14 viewMatrixInverse);
     direction := Vec3 (m2 viewMatrix) (m6 viewMatrix) (m10 viewMatrix);
     up := Vec3 (m1 viewMatrix) (m5 viewMatrix) (m9 viewMatrix) |}.

(** The transcendental functions have no exact counterpart: the tangent
    is replaced by its argument and the mercator package by constants. *)
Definition platform : Platform Qc := {|
  Math_PI := Q2Qc (355 # 113);
  Math_tan := fun a => a;
  Math_pow := pow;
  getMercatorMeterZoom := fun _ => Return 0;
  getMercatorDistanceScales := fun _ _ _ => Return unit_scales;
  getMercatorWorldPosition := fun _ _ _ _ => Return (Vec3 0 0 0);
  math_equals := equals;
  Matrix4_transformVector := fun m v => Return (transformVector3 m v);
  extractCameraVectors := cameraVectors
|}.

Definition opts (width height : option Qc)
    (viewMatrix projectionMatrix : option (mat4 Qc)) : Opts.t Qc :=
  {| Opts.id := None; Opts.x := None; Opts.y := None;
     Opts.width := width; Opts.height := height;
     Opts.viewMatrix := viewMatrix;
     Opts.projectionMatrix := projectionMatrix;
     Opts.fovy := None; Opts.near := None; Opts.far := None;
     Opts.longitude := None; Opts.latitude := None; Opts.zoom := None;
     Opts.position := None; Opts.modelMatrix := None;
     Opts.distanceScales := None; Opts.focalDistance := None |}.
End Exact.

(** ** The viewports of the examples *)

(** A matrix written with integer entries, read in another number type. *)
Definition mat4_map {A B : Type} (f : A -> B) (a : mat4 A) : mat4 B :=
  Mat4 (f (m0 a)) (f (m1 a)) (f (m2 a)) (f (m3 a))
       (f (m4 a)) (f (m5 a)) (f (m6 a)) (f (m7 a))
       (f (m8 a)) (f (m9 a)) (f (m10 a)) (f (m11 a))
       (f (m12 a)) (f (m13 a)) (f (m14 a)) (f (m15 a)).

(** A camera five units behind the origin, looking down the negative z
    axis through a perspective with near plane 1 and far plane 3, on a 4x2
    window, in exact arithmetic. *)
Definition exact_opts : Opts.t Qc :=
  Exact.opts (Some (of_Z 4)) (Some (of_Z 2))
    (Some (mat4_map of_Z (Mat4 1 0 0 0 0 1 0 0 0 0 1 0 0 0 (-5) 1)%Z))
    (Some (mat4_map of_Z (Mat4 1 0 0 0 0 1 0 0 0 0 (-2) (-1) 0 0 (-3) 0)%Z)).

(** A stand-in for the mercator package in exact arithmetic, with a world
    position that depends on the anchor: the longitude and latitude moved
    by the offset. *)
Definition anchored_platform : Platform Qc := {|
  Math_PI := Math_PI Exact.platform;
  Math_tan := Math_tan Exact.platform;
  Math_pow := Math_pow Exact.platform;
  getMercatorMeterZoom := getMercatorMeterZoom Exact.platform;
  getMercatorDistanceScales := getMercatorDistanceScales Exact.platform;
  getMercatorWorldPosition := fun longitude latitude _ meterOffset =>
    Return
      (Vec3 (longitude + v3_0 meterOffset)%Qc
            (latitude + v3_1 meterOffset)%Qc (v3_2 meterOffset));
  math_equals := math_equals Exact.platform;
  Matrix4_transformVector := Matrix4_transformVector Exact.platform;
  extractCameraVectors := extractCameraVectors Exact.platform
|}.

(** The same stand-in with a default zoom that can be told from the
    constant 0: the latitude itself. *)
Definition zooming_platform : Platform Qc := {|
  Math_PI := Math_PI anchored_platform;
  Math_tan := Math_tan anchored_platform;
  Math_pow := Math_pow anchored_platform;
  getMercatorMeterZoom := fun latitude => Return latitude;
  getMercatorDistanceScales := getMercatorDistanceScales anchored_platform;
  getMercatorWorldPosition := getMercatorWorldPosition anchored_platform;
  math_equals := math_equals anchored_platform;
  Matrix4_transformVector := Matrix4_transformVector anchored_platform;
  extractCameraVectors := extractCameraVectors anchored_platform
|}.

(** The camera of [exact_opts], anchored at longitude 3 and latitude 7 with
    zoom 1. *)
Definition anchored_opts : Opts.t Qc :=
  {| Opts.id := None; Opts.x := None; Opts.y := None;
     Opts.width := Opts.width exact_opts;
     Opts.height := Opts.height exact_opts;
     Opts.viewMatrix := Opts.viewMatrix exact_opts;
     Opts.projectionMatrix := Opts.projectionMatrix exact_opts;
     Opts.fovy := None; Opts.near := None; Opts.far := None;
     Opts.longitude := Some (of_Z 3); Opts.latitude := Some (of_Z 7);
     Opts.zoom := Some (of_Z 1);
     Opts.position := None; Opts.modelMatrix := None;
     Opts.distanceScales := None; Opts.focalDistance := None |}.

(** The same anchored camera with no zoom given. *)
Definition unzoomed_opts : Opts.t Qc :=
  {| Opts.id := None; Opts.x := None; Opts.y := None;
     Opts.width := Opts.width exact_opts;
     Opts.height := Opts.height exact_opts;
     Opts.viewMatrix := Opts.viewMatrix exact_opts;
     Opts.projectionMatrix := Opts.projectionMatrix exact_opts;
     Opts.fovy := None; Opts.near := None; Opts.far := None;
     Opts.longitude := Some (of_Z 3); Opts.latitude := Some (of_Z 7);
     Opts.zoom := None;
     Opts.position := None; Opts.modelMatrix := None;
     Opts.distanceScales := None; Opts.focalDistance := None |}.

(** A model matrix that doubles every length. *)
Definition doubling : mat4 Qc :=
  mat4_map of_Z (Mat4 2 0 0 0 0 2 0 0 0 0 2 0 0 0 0 1)%Z.

(** Options with a projection matrix that has no scale on the x axis, in
    exact arithmetic. *)
Definition flat_opts : Opts.t Qc :=
  Exact.opts None None None
    (Some (mat4_map of_Z (Mat4 0 0 0 0 0 1 0 0 0 0 1 0 0 0 0 1)%Z)).

Section Examples.
Local Open Scope float_scope.

(** The options of the end-to-end example: an 800x600 window, the
    identity view matrix and the default perspective (fovy 75 degrees,
    near 0.1, far 1000). *)
Definition example_opts : Opts.t float :=
  Js.opts (Some 800) (Some 600) (Some createMat4) None.

(** A projection matrix that exchanges the x and z axes. *)
Definition swap_xz : mat4 float :=
  Mat4 0 0 1 0
       0 1 0 0
       1 0 0 0
       0 0 0 1.

(** A projection matrix that is close to singular: its upper left 2x2
    block has determinant 49 * 2^-56. *)
Definition nearly_singular : mat4 float :=
  Mat4 0x1.0000007p+0 0x1.000000ep+0 0 0
       1 0x1.0000007p+0 0 0
       0 0 1 0
       0 0 0 1.

(** A projection matrix that scales x and y by 2^540. *)
Definition large_scale : mat4 float :=
  Mat4 0x1p+540 0 0 0
       0 0x1p+540 0 0
       0 0 1 0
       0 0 0 1.

(** A projection matrix whose inverse sends the pixels of the line
    [y = 1] to rays that stay in the plane [z = 1], with endpoints on
    opposite sides of the origin. *)
Definition parallel_rays : mat4 float :=
  Mat4 0x1p-1000 0 0 0
       (-1) 0 0.5 1
       1 (-1) (-0.5) (-1)
       (-1) 1 0 1.

(** A camera five units behind the origin, with the default perspective
    on an 800x600 window. *)
Definition camera_opts : Opts.t float :=
  Js.opts (Some 800) (Some 600)
    (Some (Mat4 1 0 0 0 0 1 0 0 0 0 1 0 0 0 (-5) 1)) None.

(** A projection matrix with no scale on the x axis. *)
Definition flat_x : mat4 float :=
  mat4_map of_Z (Mat4 0 0 0 0 0 1 0 0 0 0 1 0 0 0 0 1)%Z.

(** A projection matrix whose first and third columns are equal. *)
Definition equal_columns : mat4 float :=
  Mat4 0.5 0x1.999999999999ap-4 3 3
       0 0x1.999999999999ap-4 0x1.ccccccccccccdp-1 0.5
       0.5 0x1.999999999999ap-4 3 3
       1 0x1.ccccccccccccdp-1 0x1.6666666666666p-1 0.

(** A mercator package that rejects a falsy latitude, as an assertion on
    its argument does; otherwise as unmodelled as in [Js.platform]. *)
Definition rejecting_platform : Platform float := {|
  Math_PI := Math_PI Js.platform;
  Math_tan := Math_tan Js.platform;
  Math_pow := Math_pow Js.platform;
  getMercatorMeterZoom := fun latitude =>
    if truthy latitude then Return nan else Throw (AssertionError None);
  getMercatorDistanceScales := getMercatorDistanceScales Js.platform;
  getMercatorWorldPosition := getMercatorWorldPosition Js.platform;
  math_equals := math_equals Js.platform;
  Matrix4_transformVector := Matrix4_transformVector Js.platform;
  extractCameraVectors := extractCameraVectors Js.platform
|}.

(** [{latitude: 0, longitude: 0}] *)
Definition equator_opts : Opts.t float :=
  {| Opts.id := None; Opts.x := None; Opts.y := None;
     Opts.width := None; Opts.height := None;
     Opts.viewMatrix := None; Opts.projectionMatrix := None;
     Opts.fovy := None; Opts.near := None; Opts.far := None;
     Opts.longitude := Some 0; Opts.latitude := Some 0; Opts.zoom := None;
     Opts.position := None; Opts.modelMatrix := None;
     Opts.distanceScales := None; Opts.focalDistance := None |}.

End Examples.

(** ** Facts about the constructor *)

Section Constructor.
Context {num : Type} `{Number num} (E : Platform num).
Local Open Scope js_scope.

Lemma initMatrices_inverse w h V P :
  let ms := fst (Viewport._initMatrices E w h V P) in
  Viewport.i_pixelUnprojectionMatrix ms =
    mat4_invert (Viewport.i_pixelProjectionMatrix ms).
Proof. reflexivity. Qed.

Lemma initMatrices_log w h V P :
  snd (Viewport._initMatrices E w h V P) =
  match Viewport.i_pixelUnprojectionMatrix
          (fst (Viewport._initMatrices E w h V P)) with
  | None => ["Pixel project matrix not invertible"%string]
  | Some _ => []
  end.
Proof. reflexivity. Qed.

Lemma initMatrices_fields w h V P ms log :
  Viewport._initMatrices E w h V P = (ms, log) ->
  Viewport.i_pixelUnprojectionMatrix ms =
    mat4_invert (Viewport.i_pixelProjectionMatrix ms) /\
  log = match Viewport.i_pixelUnprojectionMatrix ms with
        | None => ["Pixel project matrix not invertible"%string]
        | Some _ => []
        end.
Proof.
  intros Hi.
  pose proof (initMatrices_inverse w h V P) as Hinv.
  pose proof (initMatrices_log w h V P) as Hlog.
  rewrite Hi in Hinv, Hlog. split; assumption.
Qed.

(** The constructor, one case per shape of the options it branches on and
    per outcome of the calls it makes. *)
Ltac constructor_step :=
  match goal with
  | |- context [Viewport.resolve_zoom ?e ?o] =>
      destruct (Viewport.resolve_zoom e o) eqn:?
  | |- context [Viewport.anchor ?o] =>
      destruct (Viewport.anchor o) as [[? ?]|] eqn:?
  | |- context [getMercatorDistanceScales ?e ?a ?b ?c] =>
      destruct (getMercatorDistanceScales e a b c) eqn:?
  | |- context [Opts.position ?o] =>
      destruct (Opts.position o) eqn:?
  | |- context [Opts.modelMatrix ?o] =>
      destruct (Opts.modelMatrix o) eqn:?
  | |- context [Matrix4_transformVector ?e ?m ?p] =>
      destruct (Matrix4_transformVector e m p) eqn:?
  | |- context [getMercatorWorldPosition ?e ?a ?b ?c ?d] =>
      destruct (getMercatorWorldPosition e a b c d) eqn:?
  | |- context [Opts.projectionMatrix ?o] =>
      destruct (Opts.projectionMatrix o) eqn:?
  | |- context [isFinite (default (Opts.fovy ?o) ?d)] =>
      destruct (isFinite (default (Opts.fovy o) d)) eqn:?
  | |- context [Viewport._initMatrices ?e ?w ?h ?V ?P] =>
      destruct (Viewport._initMatrices e w h V P) as [? ?] eqn:?
  end;
  cbv beta iota delta [bind assert].

(** The same with the options of the anchor and of the zoom taken apart,
    for what is stated on the options themselves. *)
Ltac options_step :=
  match goal with
  | |- context [Opts.latitude ?o] => destruct (Opts.latitude o) eqn:?
  | |- context [Opts.longitude ?o] => destruct (Opts.longitude o) eqn:?
  | |- context [isFinite ?a && isFinite ?b] =>
      destruct (isFinite a && isFinite b) eqn:?
  | |- context [Opts.zoom ?o] => destruct (Opts.zoom o) eqn:?
  | |- context [if isFinite ?z then _ else _] =>
      destruct (isFinite z) eqn:?
  | |- context [getMercatorMeterZoom ?e ?a] =>
      destruct (getMercatorMeterZoom e a) eqn:?
  end;
  cbv beta iota delta [bind assert].

Ltac options_cases :=
  unfold package_calls, offset_call, Viewport.constructor,
    Viewport.resolve_zoom, Viewport.anchor;
  repeat (first [options_step | constructor_step]; try discriminate;
          try (intros [= <-]; reflexivity)).

Ltac constructor_cases opts :=
  let Concl := fresh "Concl" in
  match goal with
  | |- _ -> ?G => set (Concl := G)
  | _ => idtac
  end;
  unfold Viewport.constructor;
  repeat (constructor_step; try discriminate);
  try subst Concl.

(** The fields of a constructed instance that depend on nothing but the
    options and each other. *)
Lemma constructor_fields opts v log :
  Viewport.constructor E opts = Return (v, log) ->
  Viewport.width v = or_default (Opts.width opts) one /\
  Viewport.height v = or_default (Opts.height opts) one /\
  Viewport.isGeospatial v =
    isFinite_opt (Opts.latitude opts) && isFinite_opt (Opts.longitude opts) /\
  Viewport.resolve_zoom E opts = Return (Viewport.zoom v) /\
  Viewport.scale v = Math_pow E two (Viewport.zoom v) /\
  Viewport.pixelUnprojectionMatrix v =
    mat4_invert (Viewport.pixelProjectionMatrix v) /\
  log = match Viewport.pixelUnprojectionMatrix v with
        | None => ["Pixel project matrix not invertible"%string]
        | Some _ => []
        end.
Proof.
  constructor_cases opts;
    intros [= <- <-];
    match goal with
    | Hi : Viewport._initMatrices _ _ _ _ _ = _ |- _ =>
        destruct (initMatrices_fields _ _ _ _ _ _ Hi) as [Hinv Hlog]
    end;
    cbv beta iota delta
      [Viewport.width Viewport.height Viewport.isGeospatial Viewport.zoom
       Viewport.scale Viewport.pixelUnprojectionMatrix
       Viewport.pixelProjectionMatrix];
    repeat split; solve [reflexivity | assumption].
Qed.

(** What the constructor throws is what one of its package calls throws,
    or the failed assertion on [fovy], which is reached only when no
    projection matrix is given. *)
Lemma constructor_throws_package opts e :
  package_calls E opts = Throw e ->
  Viewport.constructor E opts = Throw e.
Proof.
  options_cases.
Qed.

Lemma constructor_returns opts :
  package_calls E opts = Return tt ->
  (Opts.projectionMatrix opts <> None \/
   isFinite (default (Opts.fovy opts) (of_Z 75)) = true) ->
  exists v log, Viewport.constructor E opts = Return (v, log).
Proof.
  intros Hcalls Hok.
  assert (Hfovy : Opts.projectionMatrix opts = None ->
                  isFinite (default (Opts.fovy opts) (of_Z 75)) = true).
  { destruct Hok; congruence. }
  clear Hok. revert Hcalls Hfovy.
  options_cases;
    intros _ Hfovy;
    try (eexists; eexists; reflexivity);
    specialize (Hfovy eq_refl); congruence.
Qed.

Lemma constructor_asserts_fovy opts :
  package_calls E opts = Return tt ->
  Opts.projectionMatrix opts = None ->
  isFinite (default (Opts.fovy opts) (of_Z 75)) = false ->
  Viewport.constructor E opts = Throw (AssertionError None).
Proof.
  intros Hcalls HP Hf. revert Hcalls.
  unfold package_calls, offset_call, Viewport.constructor,
    Viewport.resolve_zoom, Viewport.anchor.
  rewrite HP, Hf.
  repeat (first [options_step | constructor_step]; try discriminate;
          try reflexivity).
Qed.

Lemma initMatrices_matrices w h V P :
  let ms := fst (Viewport._initMatrices E w h V P) in
  Viewport.i_viewProjectionMatrix ms =
    mat4_multiply (mat4_multiply createMat4 P) V /\
  Viewport.i_viewMatrixInverse ms = default (mat4_invert V) V /\
  Viewport.i_pixelProjectionMatrix ms =
    mat4_multiply
      (mat4_translate
         (mat4_scale createMat4 (Vec3 (w / two) (- h / two) one))
         (Vec3 one (- one) zero))
      (Viewport.i_viewProjectionMatrix ms).
Proof. repeat split. Qed.

(** The matrices of a constructed instance, as [_initMatrices] derives them
    from its view and projection matrices and its size. *)
Lemma constructor_matrices opts v log :
  Viewport.constructor E opts = Return (v, log) ->
  Viewport.viewProjectionMatrix v =
    mat4_multiply (mat4_multiply createMat4 (Viewport.projectionMatrix v))
      (Viewport.viewMatrix v) /\
  Viewport.viewMatrixInverse v =
    default (mat4_invert (Viewport.viewMatrix v)) (Viewport.viewMatrix v) /\
  Viewport.pixelProjectionMatrix v =
    mat4_multiply
      (mat4_translate
         (mat4_scale createMat4
            (Vec3 (Viewport.width v / two) (- Viewport.height v / two) one))
         (Vec3 one (- one) zero))
      (Viewport.viewProjectionMatrix v).
Proof.
  constructor_cases opts;
    intros [= <- <-];
    match goal with
    | Hi : Viewport._initMatrices _ ?w ?h ?V ?P = _ |- _ =>
        pose proof (initMatrices_matrices w h V P) as Hm;
        rewrite Hi in Hm; exact Hm
    end.
Qed.

(** The anchor of a constructed instance: its offset in meters, its
    distance scales, its centre and its view matrix. *)
Lemma constructor_anchor opts v log :
  Viewport.constructor E opts = Return (v, log) ->
  Viewport.viewMatrixUncentered v =
    default (Opts.viewMatrix opts) createMat4 /\
  match Opts.position opts with
  | Some position =>
      match Opts.modelMatrix opts with
      | Some modelMatrix =>
          Matrix4_transformVector E modelMatrix position =
            Return (Viewport.meterOffset v)
      | None => Viewport.meterOffset v = position
      end
  | None => Viewport.meterOffset v = Vec3 zero zero zero
  end /\
  Viewport.modelMatrix v =
    match Opts.position opts with
    | Some _ => Opts.modelMatrix opts
    | None => None
    end /\
  match Viewport.anchor opts with
  | Some (latitude, longitude) =>
      exists center,
        getMercatorDistanceScales E latitude longitude (Viewport.scale v) =
          Return (Viewport.distanceScales v) /\
        getMercatorWorldPosition E longitude latitude (Viewport.zoom v)
          (Viewport.meterOffset v) = Return center /\
        Viewport.center v = Some center /\
        Viewport.viewMatrix v =
          mat4_translate
            (mat4_scale
               (mat4_multiply createMat4 (Viewport.viewMatrixUncentered v))
               (Vec3 one (- one) one))
            (Viewport.vec3_negate center)
  | None =>
      Viewport.center v = Opts.position opts /\
      Viewport.viewMatrix v = Viewport.viewMatrixUncentered v /\
      Viewport.distanceScales v =
        default (Opts.distanceScales opts) Viewport.DEFAULT_DISTANCE_SCALES
  end.
Proof.
  constructor_cases opts;
    intros [= <- <-];
    cbv beta iota delta
      [Viewport.viewMatrixUncentered Viewport.meterOffset
       Viewport.modelMatrix Viewport.center Viewport.viewMatrix
       Viewport.distanceScales Viewport.scale Viewport.zoom];
    repeat match goal with
           | |- _ /\ _ => split
           | |- exists _, _ => eexists
           end;
    solve [reflexivity | eassumption].
Qed.

(** The zoom of a constructed instance, read off the options. *)
Lemma constructor_zoom opts v log :
  Viewport.constructor E opts = Return (v, log) ->
  (forall z, Opts.zoom opts = Some z -> isFinite z = true ->
     Viewport.zoom v = z) /\
  (isFinite_opt (Opts.zoom opts) = false ->
   forall latitude longitude,
     Opts.latitude opts = Some latitude ->
     Opts.longitude opts = Some longitude ->
     isFinite latitude && isFinite longitude = true ->
     getMercatorMeterZoom E latitude = Return (Viewport.zoom v)) /\
  (isFinite_opt (Opts.zoom opts) = false ->
   isFinite_opt (Opts.latitude opts) && isFinite_opt (Opts.longitude opts) =
     false ->
   Viewport.zoom v = of_Z 0).
Proof.
  intros Hc.
  destruct (constructor_fields opts v log Hc) as (_ & _ & _ & Hzoom & _).
  unfold Viewport.resolve_zoom, Viewport.anchor in Hzoom.
  split; [|split].
  - intros z Hz Hfin. rewrite Hz, Hfin in Hzoom. congruence.
  - intros Hz latitude longitude Hlat Hlng Hfin.
    rewrite Hlat, Hlng, Hfin in Hzoom.
    destruct (Opts.zoom opts) as [z|]; [|exact Hzoom].
    cbn in Hz. rewrite Hz in Hzoom. exact Hzoom.
  - intros Hz Hgeo.
    assert (Hnone : match Opts.latitude opts, Opts.longitude opts with
                    | Some latitude, Some longitude =>
                        if isFinite latitude && isFinite longitude
                        then Some (latitude, longitude) else None
                    | _, _ => None
                    end = None).
    { destruct (Opts.latitude opts), (Opts.longitude opts);
        cbn in Hgeo; try reflexivity. rewrite Hgeo. reflexivity. }
    rewrite Hnone in Hzoom.
    destruct (Opts.zoom opts) as [z|];
      [cbn in Hz; rewrite Hz in Hzoom|];
      injection Hzoom as <-; reflexivity.
Qed.

(** The [id] of a constructed instance. *)
Lemma constructor_id opts v log :
  Viewport.constructor E opts = Return (v, log) ->
  Viewport.id v =
    match Opts.id opts with
    | Some s => if String.eqb s "" then Viewport.displayName else s
    | None => Viewport.displayName
    end.
Proof.
  constructor_cases opts; intros [= <- <-]; reflexivity.
Qed.

End Constructor.

(** ** Properties that hold in every arithmetic *)

Section Generic.
Context {num : Type} `{Number num} (E : Platform num).
Local Open Scope js_scope.

(** With no unprojection matrix, [unproject] answers [null]. *)
Lemma unproject_without_matrix (v : Viewport.t num) xyz topLeft :
  Viewport.pixelUnprojectionMatrix v = None ->
  Viewport.unproject v xyz topLeft = Return None.
Proof.
  intros Hnone. unfold Viewport.unproject. rewrite Hnone. reflexivity.
Qed.

(** [unproject] has no failing path. *)
Lemma unproject_total (v : Viewport.t num) xyz topLeft :
  exists r, Viewport.unproject v xyz topLeft = Return r.
Proof.
  unfold Viewport.unproject.
  repeat match goal with
         | |- context [transformVector ?m ?a] =>
             destruct (transformVector m a)
         end; eexists; reflexivity.
Qed.

(** No method call changes the instance. *)
Lemma lifetime_unchanged (v : Viewport.t num) calls :
  lifetime E v calls = v.
Proof.
  induction calls as [|c calls IH]; [reflexivity|].
  cbn [lifetime]. destruct c; exact IH.
Qed.

(** C4. Scale invariant.  The constructor returns an instance whenever the
    package calls it makes return and it has a projection matrix or a
    finite [fovy].  Every instance it returns has [scale] equal to
    [Math.pow(2, zoom)], and keeps its [zoom] and that [scale] through any
    sequence of method calls; its [zoom] is the supplied zoom when that is
    a finite number, else what [getMercatorMeterZoom] returned for the
    latitude when latitude and longitude are finite, else 0. *)
Theorem scale_invariant opts :
  (package_calls E opts = Return tt ->
   Opts.projectionMatrix opts <> None \/
   isFinite (default (Opts.fovy opts) (of_Z 75)) = true ->
   exists v log, Viewport.constructor E opts = Return (v, log)) /\
  (forall v log,
     Viewport.constructor E opts = Return (v, log) ->
     (forall calls,
        let v' := lifetime E v calls in
        Viewport.scale v' = Math_pow E (of_Z 2) (Viewport.zoom v') /\
        Viewport.zoom v' = Viewport.zoom v /\
        Viewport.scale v' = Viewport.scale v) /\
     (forall z, Opts.zoom opts = Some z -> isFinite z = true ->
        Viewport.zoom v = z) /\
     (isFinite_opt (Opts.zoom opts) = false ->
      forall latitude longitude,
        Opts.latitude opts = Some latitude ->
        Opts.longitude opts = Some longitude ->
        isFinite latitude && isFinite longitude = true ->
        getMercatorMeterZoom E latitude = Return (Viewport.zoom v)) /\
     (isFinite_opt (Opts.zoom opts) = false ->
      isFinite_opt (Opts.latitude opts) &&
      isFinite_opt (Opts.longitude opts) = false ->
      Viewport.zoom v = of_Z 0)).
Proof.
  split; [apply constructor_returns|].
  intros v log Hc.
  destruct (constructor_fields E opts v log Hc)
    as (_ & _ & _ & _ & Hscale & _).
  split; [|exact (constructor_zoom E opts v log Hc)].
  intros calls v'. subst v'. rewrite lifetime_unchanged.
  repeat split. exact Hscale.
Qed.

(** [project] validates its input: it throws the assertion error "Illegal
    argument to Viewport" whenever [x], [y] or [z] (0 when absent) is not a
    finite number.  [unproject] has no such validation and no failing
    path. *)
Lemma project_validates_unproject_does_not (v : Viewport.t num) xyz topLeft :
  (isFinite (coord_0 xyz) && isFinite (coord_1 xyz) &&
   isFinite (default (coord_2 xyz) (of_Z 0)) = false ->
   Viewport.project v xyz topLeft =
     Throw (AssertionError (Some "Illegal argument to Viewport"%string))) /\
  exists r, Viewport.unproject v xyz topLeft = Return r.
Proof.
  split; [|apply unproject_total].
  intros Hbad. unfold Viewport.project, zero. rewrite Hbad. reflexivity.
Qed.

(** C6, as amended. The width and height of a constructed instance are
    the supplied ones unless those are falsy (absent, 0 or NaN), which
    are replaced by 1; a supplied value is otherwise kept as it is, also
    below 1. *)
Theorem width_height_fallback opts v log :
  Viewport.constructor E opts = Return (v, log) ->
  Viewport.width v =
    match Opts.width opts with
    | Some w => if truthy w then w else of_Z 1
    | None => of_Z 1
    end /\
  Viewport.height v =
    match Opts.height opts with
    | Some h => if truthy h then h else of_Z 1
    | None => of_Z 1
    end.
Proof.
  intros Hc.
  destruct (constructor_fields E opts v log Hc) as (Hw & Hh & _).
  split; assumption.
Qed.

(** C8. [equals] is true exactly on a Viewport with the same width and
    height and with projection and view matrices that math.gl's [equals]
    accepts; the distance scales of either side play no part. *)
Theorem equals_definition (v1 : Viewport.t num) :
  (forall v2 : Viewport.value num,
     Viewport.equals E v1 v2 = true <->
     exists w,
       v2 = Viewport.VViewport w /\
       (Viewport.width w === Viewport.width v1) = true /\
       (Viewport.height w === Viewport.height v1) = true /\
       math_equals E (Viewport.projectionMatrix w)
         (Viewport.projectionMatrix v1) = true /\
       math_equals E (Viewport.viewMatrix w) (Viewport.viewMatrix v1) = true) /\
  (forall w ds1 ds2,
     Viewport.equals E (with_distanceScales ds1 v1)
       (Viewport.VViewport (with_distanceScales ds2 w)) =
     Viewport.equals E v1 (Viewport.VViewport w)).
Proof.
  split.
  - intros v2. split.
    + destruct v2 as [| | | |w]; cbn; try discriminate.
      intros Heq. exists w.
      repeat (apply andb_true_iff in Heq; destruct Heq as [Heq ?]).
      repeat split; assumption.
    + intros (w & -> & Hw & Hh & Hp & Hv). cbn.
      rewrite Hw, Hh, Hp, Hv. reflexivity.
  - intros w ds1 ds2. reflexivity.
Qed.

(** C10. The hooks of the base class are the identity: [projectFlat] and
    [unprojectFlat] return their first argument, whatever the instance
    (geospatial or not) and whatever the scale argument. *)
Theorem flat_hooks_identity (v : Viewport.t num) (p : coord num)
    (scale : option num) :
  Viewport.projectFlat v p scale = p /\
  Viewport.unprojectFlat v p scale = p.
Proof.
  split; reflexivity.
Qed.

(** X1. What the constructor throws.  When one of the package calls it
    makes throws, the constructor throws that exception.  When they all
    return, it checks nothing but [fovy]: it throws the assertion error
    (without message) exactly when no projection matrix is given and
    [fovy], 75 by default, is not a finite number, and returns an instance
    for every other option bag, whatever its sizes, planes and
    matrices. *)
Theorem constructor_outcome opts :
  match package_calls E opts with
  | Throw e => Viewport.constructor E opts = Throw e
  | Return _ =>
      match Opts.projectionMatrix opts,
            isFinite (default (Opts.fovy opts) (of_Z 75)) with
      | None, false =>
          Viewport.constructor E opts = Throw (AssertionError None)
      | _, _ => exists v log, Viewport.constructor E opts = Return (v, log)
      end
  end.
Proof.
  destruct (package_calls E opts) as [[]|e] eqn:Hcalls;
    [|exact (constructor_throws_package E opts e Hcalls)].
  destruct (Opts.projectionMatrix opts) as [P|] eqn:HP.
  - apply (constructor_returns E opts Hcalls). left. congruence.
  - destruct (isFinite (default (Opts.fovy opts) (of_Z 75))) eqn:Hf.
    + apply (constructor_returns E opts Hcalls). right. exact Hf.
    + exact (constructor_asserts_fovy E opts Hcalls HP Hf).
Qed.

(** X2. The [topLeft] option is a flip of the pixel's [y] by the height of
    the viewport, after projecting and before unprojecting: projecting
    with [topLeft] is projecting without it and flipping the result, and
    unprojecting with [topLeft] is unprojecting the flipped pixel without
    it. *)
Theorem topLeft_is_a_flip (v : Viewport.t num) (xyz : coord num) :
  Viewport.project v xyz true =
    (q <- Viewport.project v xyz false ;;
     Return (coord_flip_y (Viewport.height v) q)) /\
  Viewport.unproject v xyz true =
    Viewport.unproject v (coord_flip_y (Viewport.height v) xyz) false.
Proof.
  split.
  - unfold Viewport.project.
    destruct (assert _ _) as [[]|e]; cbn [bind]; [|reflexivity].
    destruct (transformVector _ _) as [r|]; [|reflexivity].
    destruct xyz; reflexivity.
  - destruct xyz; reflexivity.
Qed.

(** X3. [project] and [unproject] answer with an array as long as their
    argument, and never with a depth: the third component of a
    three-element result is 0, whatever the [z] that was passed. *)
Theorem results_have_no_depth (v : Viewport.t num) (xyz : coord num)
    (topLeft : bool) :
  (forall q, Viewport.project v xyz topLeft = Return q ->
     coord_length q = coord_length xyz /\
     (coord_length q = 3%nat -> coord_2 q = Some (of_Z 0))) /\
  (forall r, Viewport.unproject v xyz topLeft = Return (Some r) ->
     coord_length r = coord_length xyz /\
     (coord_length r = 3%nat -> coord_2 r = Some (of_Z 0))).
Proof.
  split.
  - intros q. unfold Viewport.project.
    destruct (assert _ _) as [[]|e]; cbn [bind]; [|discriminate].
    destruct (transformVector _ _) as [r|]; [|discriminate].
    destruct xyz; intros [= <-]; split; try reflexivity; discriminate.
  - intros r. unfold Viewport.unproject.
    repeat match goal with
           | |- context [transformVector ?m ?a] =>
               destruct (transformVector m a)
           end; try discriminate.
    destruct xyz; intros [= <-]; split; try reflexivity; discriminate.
Qed.

(** X4. [_addMetersToLngLat] validates the offset and nothing else: it
    throws "Illegal argument to Viewport" exactly when a component of the
    offset ([z] being 0 when absent) is not a finite number, whatever the
    point; otherwise it returns an array as long as the point, so that the
    [z] of the offset is dropped for a two-element point. *)
Theorem addMeters_validates_offset_only (v : Viewport.t num)
    (lngLatZ xyz : coord num) :
  if isFinite (coord_0 xyz) && isFinite (coord_1 xyz) &&
     isFinite (default (coord_2 xyz) (of_Z 0))
  then exists r,
         Viewport._addMetersToLngLat v lngLatZ xyz = Return r /\
         coord_length r = coord_length lngLatZ
  else Viewport._addMetersToLngLat v lngLatZ xyz =
         Throw (AssertionError (Some "Illegal argument to Viewport"%string)).
Proof.
  unfold Viewport._addMetersToLngLat, Viewport._metersToLngLatDelta.
  fold (@zero num _).
  destruct (isFinite (coord_0 xyz) && isFinite (coord_1 xyz) &&
            isFinite (default (coord_2 xyz) zero)); cbn [assert bind].
  - eexists. split; [reflexivity|]. destruct lngLatZ; reflexivity.
  - reflexivity.
Qed.

(** X16. Options the constructor does not read.  With a projection
    matrix, [fovy], [near] and [far] play no part (a [fovy] that is not a
    number is then accepted); without a [position], the [modelMatrix] plays
    no part; with a finite latitude and longitude, the [distanceScales]
    option plays no part.  In each case the constructor returns the same
    instance and the same warnings. *)
Theorem unused_options (o : Opts.t num) :
  (Opts.projectionMatrix o <> None ->
   forall fovy near far,
     Viewport.constructor E (with_perspective fovy near far o) =
     Viewport.constructor E o) /\
  (Opts.position o = None ->
   forall modelMatrix,
     Viewport.constructor E (with_modelMatrix modelMatrix o) =
     Viewport.constructor E o) /\
  (isFinite_opt (Opts.latitude o) && isFinite_opt (Opts.longitude o) = true ->
   forall distanceScales,
     Viewport.constructor E (with_scales distanceScales o) =
     Viewport.constructor E o).
Proof.
  destruct o as [id x y w h V P fovy near far lng lat zoom pos M ds fd].
  cbn [Opts.projectionMatrix Opts.position Opts.latitude Opts.longitude].
  split; [|split].
  - destruct P as [P|]; [|congruence]. intros _ fovy' near' far'.
    reflexivity.
  - intros -> M'. reflexivity.
  - intros Hgeo ds'.
    destruct lat as [lat|]; [|discriminate].
    destruct lng as [lng|];
      [|cbn in Hgeo; rewrite andb_false_r in Hgeo; discriminate].
    cbn [isFinite_opt] in Hgeo.
    unfold Viewport.constructor, with_scales, Viewport.resolve_zoom,
      Viewport.anchor.
    cbn [Opts.id Opts.x Opts.y Opts.width Opts.height Opts.viewMatrix
         Opts.projectionMatrix Opts.fovy Opts.near Opts.far Opts.longitude
         Opts.latitude Opts.zoom Opts.position Opts.modelMatrix
         Opts.distanceScales Opts.focalDistance].
    rewrite Hgeo. reflexivity.
Qed.

(** X17. The [id] of a constructed instance is never the empty string: it
    is the supplied [id] when that is a non-empty string and the class
    name "Viewport" otherwise. *)
Theorem id_never_empty opts v log :
  Viewport.constructor E opts = Return (v, log) ->
  Viewport.id v <> ""%string /\
  Viewport.id v =
    match Opts.id opts with
    | Some s => if String.eqb s "" then "Viewport"%string else s
    | None => "Viewport"%string
    end.
Proof.
  intros Hc.
  assert (Hid : Viewport.id v =
                match Opts.id opts with
                | Some s => if String.eqb s "" then "Viewport"%string else s
                | None => "Viewport"%string
                end).
  { exact (constructor_id E opts v log Hc). }
  split; [|exact Hid].
  rewrite Hid. destruct (Opts.id opts) as [s|]; [|discriminate].
  destruct (String.eqb s "") eqn:Hs; [discriminate|].
  apply String.eqb_neq. exact Hs.
Qed.

(** X18. The constructor logs at most the one warning, and logs it exactly
    when the instance has no unprojection matrix, which is when
    [unproject] answers [null] for every pixel. *)
Theorem warning_iff_no_unprojection opts v log :
  Viewport.constructor E opts = Return (v, log) ->
  (log = [] \/ log = ["Pixel project matrix not invertible"%string]) /\
  (log = [] <-> Viewport.pixelUnprojectionMatrix v <> None) /\
  (log <> [] ->
   forall xyz topLeft, Viewport.unproject v xyz topLeft = Return None).
Proof.
  intros Hc.
  destruct (constructor_fields E opts v log Hc)
    as (_ & _ & _ & _ & _ & _ & Hlog).
  destruct (Viewport.pixelUnprojectionMatrix v) as [N|] eqn:HN; subst log.
  - split; [left; reflexivity|]. split; [split; congruence|].
    intros Hne. congruence.
  - split; [right; reflexivity|]. split; [split; congruence|].
    intros _ xyz topLeft. apply unproject_without_matrix. exact HN.
Qed.

End Generic.

(** ** The ray of [unproject] *)

Section Ray.
Context {num : Type} `{Number num}.
Local Open Scope js_scope.

Lemma unproject_ray (this : Viewport.t num) xyz topLeft :
  Viewport.unproject this xyz topLeft =
  match ray this xyz topLeft with
  | Some (coord0, coord1) =>
      let z0 := v4_2 coord0 in
      let z1 := v4_2 coord1 in
      let t := if z0 === z1 then zero
               else (default (coord_2 xyz) zero - z0) / (z1 - z0) in
      Return (Some (shaped_like xyz (vec2_lerp coord0 coord1 t)))
  | None => Return None
  end.
Proof.
  unfold Viewport.unproject, ray.
  repeat match goal with
         | |- context [transformVector ?m ?a] =>
             destruct (transformVector m a)
         end; destruct xyz; reflexivity.
Qed.

Lemma transformVector_finite m (a c : vec4 num) :
  transformVector m a = Some c -> vec4_isFinite c = true.
Proof.
  unfold transformVector. destruct m as [m|]; [|discriminate].
  destruct (truthy _); cbn; [|discriminate].
  destruct (vec4_isFinite _) eqn:Hfin; [|discriminate].
  intros [= <-]. exact Hfin.
Qed.

Lemma ray_finite (this : Viewport.t num) xyz topLeft coord0 coord1 :
  ray this xyz topLeft = Some (coord0, coord1) ->
  vec4_isFinite coord0 = true /\ vec4_isFinite coord1 = true.
Proof.
  unfold ray.
  repeat match goal with
         | |- context [transformVector ?m ?a] =>
             let Ht := fresh "Ht" in
             destruct (transformVector m a) eqn:Ht
         end; try discriminate.
  intros [= <- <-]. split; eapply transformVector_finite; eassumption.
Qed.

End Ray.

(** ** Binary64 *)

(** Closed goals are settled by evaluation, conjunct by conjunct. *)
Ltac by_evaluation :=
  repeat match goal with |- _ /\ _ => split end; vm_compute; reflexivity.

Section Binary64.
Local Open Scope float_scope.

Lemma SFcompare_finite_refl s m e :
  SFcompare (S754_finite s m e) (S754_finite s m e) = Some Eq.
Proof.
  cbn. rewrite Z.compare_refl, Pos.compare_cont_refl.
  destruct s; reflexivity.
Qed.

(** A finite float is a zero or a finite non-zero number. *)
Lemma is_finite_cases x :
  is_finite x = true ->
  (exists s, Prim2SF x = S754_zero s) \/
  (exists s m e, Prim2SF x = S754_finite s m e).
Proof.
  unfold is_finite, is_nan, is_infinity.
  rewrite !FloatAxioms.eqb_spec, abs_spec.
  change (Prim2SF infinity) with (S754_infinity false).
  destruct (Prim2SF x) as [s| s | |s m e] eqn:Hx;
    [left; eauto | destruct s | | right; eauto]; cbn; discriminate.
Qed.

Lemma is_finite_of_cases x :
  (exists s, Prim2SF x = S754_zero s) \/
  (exists s m e, Prim2SF x = S754_finite s m e) ->
  is_finite x = true.
Proof.
  unfold is_finite, is_nan, is_infinity.
  rewrite !FloatAxioms.eqb_spec, abs_spec.
  change (Prim2SF infinity) with (S754_infinity false).
  intros [(s & ->) | (s & m & e & ->)]; cbn.
  - reflexivity.
  - rewrite Z.compare_refl, Pos.compare_cont_refl. destruct s; reflexivity.
Qed.

(** Interpolating with parameter 0 gives the first endpoint back, up to
    the sign of a zero, provided the difference of the endpoints does not
    overflow. *)
Lemma lerp_at_zero (a b : float) :
  is_finite a = true ->
  is_finite (b - a) = true ->
  (a + 0 * (b - a) =? a) = true /\ is_finite (a + 0 * (b - a)) = true.
Proof.
  intros Ha Hd.
  apply is_finite_cases in Ha. apply is_finite_cases in Hd.
  assert (Hmul : exists s, Prim2SF (0 * (b - a)) = S754_zero s).
  { rewrite mul_spec. change (Prim2SF 0) with (S754_zero false).
    destruct Hd as [(s & ->) | (s & m & e & ->)]; cbn; eauto. }
  destruct Hmul as (s0 & Hmul).
  split.
  - rewrite FloatAxioms.eqb_spec, add_spec, Hmul.
    destruct Ha as [(s & ->) | (s & m & e & ->)].
    + destruct s, s0; reflexivity.
    + unfold SF64add, SFadd, SFeqb. rewrite SFcompare_finite_refl.
      reflexivity.
  - apply is_finite_of_cases. rewrite add_spec, Hmul.
    destruct Ha as [(s & ->) | (s & m & e & ->)].
    + left. destruct s, s0; cbn; eauto.
    + right. cbn. eauto.
Qed.

End Binary64.

Section Binary64Claims.
Local Open Scope float_scope.

(** C7, as amended. When the two endpoints of the ray have equal [z],
    [unproject] interpolates with [t = 0] and returns, never failing, the
    point [coord0 + 0 * (coord1 - coord0)]; a component of that point
    equals the one of [coord0] (up to the sign of zero) and is finite
    whenever the difference of the endpoints in that component does not
    overflow. *)
Theorem degenerate_ray (v : Viewport.t float) xyz topLeft coord0 coord1 :
  ray v xyz topLeft = Some (coord0, coord1) ->
  (v4_2 coord0 =? v4_2 coord1) = true ->
  exists r,
    Viewport.unproject v xyz topLeft = Return (Some r) /\
    r = shaped_like xyz (vec2_lerp coord0 coord1 0) /\
    coord_length r = coord_length xyz /\
    (is_finite (v4_0 coord1 - v4_0 coord0) = true ->
     (coord_0 r =? v4_0 coord0) = true /\ is_finite (coord_0 r) = true) /\
    (is_finite (v4_1 coord1 - v4_1 coord0) = true ->
     (coord_1 r =? v4_1 coord0) = true /\ is_finite (coord_1 r) = true).
Proof.
  intros Hray Hz. eexists.
  split.
  { rewrite unproject_ray, Hray. cbn -[vec2_lerp shaped_like].
    rewrite Hz. reflexivity. }
  split; [reflexivity|].
  assert (Hfin : vec4_isFinite coord0 = true).
  { exact (proj1 (ray_finite _ _ _ _ _ Hray)). }
  unfold vec4_isFinite in Hfin.
  repeat (apply andb_true_iff in Hfin; destruct Hfin as [Hfin ?]).
  split; [destruct xyz; reflexivity|].
  split; intros Hd; destruct xyz; cbn; apply lerp_at_zero; assumption.
Qed.

(** C1, counterexample. With the projection matrix [swap_xz] in a 2x2
    window the pixel projection matrix is invertible, yet projecting
    [[5, 7]] and unprojecting the result gives [[0, 7]], for either value
    of [topLeft]: every ray of this viewport is parallel to the plane
    [z = 0], so the interpolation parameter falls back to 0. *)
Lemma round_trip_fails :
  exists v log,
    Viewport.constructor Js.platform
      (Js.opts (Some 2) (Some 2) None (Some swap_xz)) = Return (v, log) /\
    Viewport.pixelUnprojectionMatrix v <> None /\
    Viewport.project v (XY 5 7) false = Return (XY 1 (-6)) /\
    Viewport.unproject v (XY 1 (-6)) false = Return (Some (XY 0 7)) /\
    Viewport.project v (XY 5 7) true = Return (XY 1 8) /\
    Viewport.unproject v (XY 1 8) true = Return (Some (XY 0 7)) /\
    Js.approx_coord (XY 0 7) (XY 5 7) = false.
Proof.
  eexists; eexists. split; [vm_compute; reflexivity|].
  split; [vm_compute; discriminate|].
  by_evaluation.
Qed.

(** C3, counterexample. The inverse exists for the two projection
    matrices below, and its product with the pixel projection matrix is
    far from the identity: the first diagonal entry is 0.75 for
    [nearly_singular], where rounding dominates, and 0 for [large_scale],
    where the 2x2 minors overflow. *)
Lemma inverse_product_not_identity :
  (exists v log N,
     Viewport.constructor Js.platform
       (Js.opts (Some 2) (Some 2) None (Some nearly_singular)) =
       Return (v, log) /\
     Viewport.pixelUnprojectionMatrix v = Some N /\
     m0 (mat4_multiply N (Viewport.pixelProjectionMatrix v)) = 0.75 /\
     Js.approx (m0 (mat4_multiply N (Viewport.pixelProjectionMatrix v))) 1
       = false) /\
  (exists v log N,
     Viewport.constructor Js.platform
       (Js.opts (Some 2) (Some 2) None (Some large_scale)) =
       Return (v, log) /\
     Viewport.pixelUnprojectionMatrix v = Some N /\
     m0 (mat4_multiply N (Viewport.pixelProjectionMatrix v)) = 0 /\
     Js.approx (m0 (mat4_multiply N (Viewport.pixelProjectionMatrix v))) 1
       = false).
Proof.
  split; do 3 eexists;
    (split; [vm_compute; reflexivity|]);
    (split; [vm_compute; reflexivity|]);
    split; vm_compute; reflexivity.
Qed.

(** C5. On the viewport of the end-to-end example, [unproject] with the
    target depth [Infinity] returns an array of infinities, and with the
    pixel [[NaN, 0]] returns [null]: neither call fails, where [project]
    rejects the same arguments with "Illegal argument to Viewport". *)
Lemma unproject_accepts_non_finite :
  exists v log,
    Viewport.constructor Js.platform example_opts = Return (v, log) /\
    Viewport.unproject v (XYZ 400 300 infinity) false =
      Return (Some (XYZ infinity neg_infinity 0)) /\
    Viewport.unproject v (XY nan 0) false = Return None /\
    Viewport.project v (XYZ 400 300 infinity) false =
      Throw (AssertionError (Some "Illegal argument to Viewport"%string)) /\
    Viewport.project v (XY nan 0) false =
      Throw (AssertionError (Some "Illegal argument to Viewport"%string)).
Proof.
  do 2 eexists. by_evaluation.
Qed.

(** C2, counterexample. The projection matrix [equal_columns] is
    singular, and so is the pixel projection matrix built from it on a 2x2
    window: both send the non-zero vector [(1, 0, -1, 0)] to zero.  Yet
    in binary64 the determinant that [mat4_invert] computes is not 0, so
    an unprojection matrix is stored, no warning is logged and
    [unproject] returns a point. *)
Lemma singular_matrix_gets_inverse :
  exists v N r,
    Viewport.constructor Js.platform
      (Js.opts (Some 2) (Some 2) None (Some equal_columns)) =
      Return (v, []) /\
    vec4_transformMat4 (Vec4 1 0 (-1) 0) equal_columns = Vec4 0 0 0 0 /\
    vec4_transformMat4 (Vec4 1 0 (-1) 0) (Viewport.pixelProjectionMatrix v) =
      Vec4 0 0 0 0 /\
    Viewport.pixelUnprojectionMatrix v = Some N /\
    Viewport.unproject v (XY 1 1) false = Return (Some r).
Proof.
  do 3 eexists. by_evaluation.
Qed.

(** C6, counterexample. A width of 0.5 and a height of -3 are kept: the
    constructed viewport has a width and a height below 1. *)
Lemma width_height_below_one :
  exists v log,
    Viewport.constructor Js.platform
      (Js.opts (Some 0.5) (Some (-3)) None None) = Return (v, log) /\
    Viewport.width v = 0.5 /\ (Viewport.width v <? 1) = true /\
    Viewport.height v = -3 /\ (Viewport.height v <? 1) = true.
Proof.
  do 2 eexists. by_evaluation.
Qed.

(** C7, counterexample. With the projection matrix [parallel_rays] in a
    2x2 window, the ray through the pixel [[2^23, 1]] has the finite
    endpoints (2^1023, 1, 1) and (-2^1023, -1, 1): their [z] are equal,
    and the [x] of the result is NaN, because the difference of the
    endpoints overflows and is then multiplied by [t = 0]. *)
Lemma degenerate_ray_not_finite :
  exists v log,
    Viewport.constructor Js.platform
      (Js.opts (Some 2) (Some 2) None (Some parallel_rays)) =
      Return (v, log) /\
    ray v (XY 0x1p+23 1) false =
      Some (Vec4 0x1p+1023 1 1 1, Vec4 (-0x1p+1023) (-1) 1 1) /\
    Viewport.unproject v (XY 0x1p+23 1) false = Return (Some (XY nan 1)) /\
    is_finite nan = false.
Proof.
  do 2 eexists. by_evaluation.
Qed.

(** C9, counterexample. In the viewport of the end-to-end example the
    point [[0, 0, 0]] is the eye of the camera: the pixel projection
    matrix sends it to a vector whose fourth component is 0, which
    cannot be normalized, and [project] fails instead of returning the
    centre of the window. *)
Lemma eye_point_has_no_pixel :
  exists v log,
    Viewport.constructor Js.platform example_opts = Return (v, log) /\
    vec4_transformMat4 (Vec4 0 0 0 1) (Viewport.pixelProjectionMatrix v) =
      Vec4 0 0 (-0x1.99a4163917fd5p-3) 0 /\
    Viewport.project v (XYZ 0 0 0) false = Throw TypeError /\
    Viewport.project v (XYZ 0 0 0) true = Throw TypeError.
Proof.
  do 2 eexists. by_evaluation.
Qed.

(** C9, as amended. In the viewport of the end-to-end example the points
    of the optical axis in front of the camera, such as [[0, 0, -1]],
    project to the centre [[400, 300, 0]] of the window, and unprojecting
    the centre [[400, 300]] to the depth 0 gives [[0, 0]]. *)
Theorem end_to_end_example :
  exists v log,
    Viewport.constructor Js.platform example_opts = Return (v, log) /\
    Viewport.isGeospatial v = false /\
    Viewport.project v (XYZ 0 0 (-1)) false = Return (XYZ 400 300 0) /\
    Viewport.project v (XYZ 0 0 (-1)) true = Return (XYZ 400 300 0) /\
    Viewport.unproject v (XY 400 300) false = Return (Some (XY 0 0)) /\
    Viewport.unproject v (XYZ 400 300 0) false = Return (Some (XYZ 0 0 0)).
Proof.
  do 2 eexists. by_evaluation.
Qed.

(** For this camera the round trip of [[1, 2]] is within 1e-6 of the
    point in binary64, for either value of [topLeft]. *)
Lemma round_trip_binary64_example :
  exists v log q q' r r',
    Viewport.constructor Js.platform camera_opts = Return (v, log) /\
    Viewport.project v (XY 1 2) false = Return q /\
    Viewport.unproject v q false = Return (Some r) /\
    Js.approx_coord r (XY 1 2) = true /\
    Viewport.project v (XY 1 2) true = Return q' /\
    Viewport.unproject v q' true = Return (Some r') /\
    Js.approx_coord r' (XY 1 2) = true.
Proof.
  do 6 eexists. by_evaluation.
Qed.

(** For the same camera every entry of the product of the unprojection and
    projection matrices is within 1e-6 of the identity in binary64. *)
Lemma inverse_product_binary64_example :
  exists v log N,
    Viewport.constructor Js.platform camera_opts = Return (v, log) /\
    Viewport.pixelUnprojectionMatrix v = Some N /\
    forallb (fun p => Js.approx (fst p) (snd p))
      (combine
         (Js.mat4_list (mat4_multiply N (Viewport.pixelProjectionMatrix v)))
         (Js.mat4_list createMat4)) = true.
Proof.
  do 3 eexists. by_evaluation.
Qed.

(** *** Further properties in binary64 *)

Lemma truthy_self_equal (x : float) :
  float_truthy x = true -> (x =? x) = true.
Proof.
  unfold float_truthy, is_nan. destruct (x =? x); [reflexivity|].
  cbn. discriminate.
Qed.

Lemma or_default_self_equal (o : option float) :
  (or_default o one =? or_default o one) = true.
Proof.
  destruct o as [w|]; cbn [or_default]; [|reflexivity].
  change (truthy w) with (float_truthy w).
  destruct (float_truthy w) eqn:Hw; [|reflexivity].
  apply truthy_self_equal. exact Hw.
Qed.

(** Nothing times finite scales, added to 0, is 0. *)
Lemma zero_offset_delta (p d : float) :
  is_finite p = true -> is_finite d = true -> 0 + 0 * p * d = 0.
Proof.
  intros Hp Hd.
  apply is_finite_cases in Hp. apply is_finite_cases in Hd.
  apply Prim2SF_inj. rewrite add_spec, !mul_spec.
  change (Prim2SF 0) with (S754_zero false).
  destruct Hp as [(s & ->) | (s & m & e & ->)],
           Hd as [(s' & ->) | (s' & m' & e' & ->)];
    destruct s, s'; reflexivity.
Qed.

(** X14. In binary64 a constructed instance equals itself as soon as
    math.gl's [equals] accepts its projection matrix and its view matrix
    against themselves: its width and height are never NaN, so the two
    strict comparisons cannot fail. *)
Theorem equals_itself (E : Platform float) opts v log :
  Viewport.constructor E opts = Return (v, log) ->
  Viewport.equals E v (Viewport.VViewport v) =
    math_equals E (Viewport.projectionMatrix v) (Viewport.projectionMatrix v)
    && math_equals E (Viewport.viewMatrix v) (Viewport.viewMatrix v).
Proof.
  intros Hc.
  destruct (constructor_fields E opts v log Hc) as (Hw & Hh & _).
  unfold Viewport.equals. rewrite Hw, Hh.
  change (@strict_eq float binary64) with PrimFloat.eqb.
  rewrite !or_default_self_equal. reflexivity.
Qed.

(** X15. The same in binary64 as in exact arithmetic: on an instance
    constructed without a [position], whose pixels-per-meter and
    degrees-per-pixel scales are finite in [x] and [y],
    [getMercatorParams] returns longitude 0 and latitude 0, whatever the
    longitude and latitude the instance was constructed with. *)
Theorem getMercatorParams_binary64 (E : Platform float) opts v log :
  Viewport.constructor E opts = Return (v, log) ->
  Opts.position opts = None ->
  is_finite (v3_0 (pixelsPerMeter (Viewport.distanceScales v))) = true ->
  is_finite (v3_1 (pixelsPerMeter (Viewport.distanceScales v))) = true ->
  is_finite (v3_0 (degreesPerPixel (Viewport.distanceScales v))) = true ->
  is_finite (v3_1 (degreesPerPixel (Viewport.distanceScales v))) = true ->
  Viewport.getMercatorParams v =
    Return {| Viewport.longitude := 0; Viewport.latitude := 0 |}.
Proof.
  intros Hc Hpos Hp0 Hp1 Hd0 Hd1.
  destruct (constructor_anchor E opts v log Hc) as (_ & Hoff & _).
  rewrite Hpos in Hoff.
  unfold Viewport.getMercatorParams, Viewport._addMetersToLngLat,
    Viewport._metersToLngLatDelta, Viewport.coord_of_vec3.
  rewrite Hoff.
  destruct (pixelsPerMeter (Viewport.distanceScales v)) as [p0 p1 p2].
  destruct (degreesPerPixel (Viewport.distanceScales v)) as [d0 d1 d2].
  cbn [v3_0 v3_1 v3_2 coord_0 coord_1 coord_2 default or_default] in *.
  replace (isFinite _ && isFinite _ && isFinite _) with true by reflexivity.
  cbn [assert bind coord_0 coord_1 coord_2 default].
  change (@zero float binary64) with 0.
  change (@add float binary64) with PrimFloat.add.
  change (@mul float binary64) with PrimFloat.mul.
  rewrite (zero_offset_delta p0 d0 Hp0 Hd0), (zero_offset_delta p1 d1 Hp1 Hd1).
  reflexivity.
Qed.

End Binary64Claims.

(** ** Exact arithmetic *)

Section ExactClaims.
Local Open Scope Qc_scope.

Ltac exact_arith :=
  cbv beta iota delta
    [add sub mul div neg of_Z zero one two exact inject_Z
     strict_eq truthy isFinite] in *.

Ltac entries :=
  cbv beta iota zeta delta
    [m0 m1 m2 m3 m4 m5 m6 m7 m8 m9 m10 m11 m12 m13 m14 m15
     v4_0 v4_1 v4_2 v4_3 v3_0 v3_1 v3_2] in *.

Lemma exact_truthy (q : Qc) : truthy q = true <-> q <> 0.
Proof.
  exact_arith. unfold Qc_eq_bool.
  destruct (Qc_eq_dec q (Q2Qc 0)); cbn; split; intros; congruence.
Qed.

Lemma Vec4_eq {num : Type} (a0 a1 a2 a3 b0 b1 b2 b3 : num) :
  a0 = b0 -> a1 = b1 -> a2 = b2 -> a3 = b3 ->
  Vec4 a0 a1 a2 a3 = Vec4 b0 b1 b2 b3.
Proof. intros. subst. reflexivity. Qed.

(** Transforming by [b] and then by [a] is transforming by the product. *)
Lemma transform_multiply (a b : mat4 Qc) (p : vec4 Qc) :
  vec4_transformMat4 (vec4_transformMat4 p b) a =
  vec4_transformMat4 p (mat4_multiply a b).
Proof.
  destruct a, b, p. unfold vec4_transformMat4, mat4_multiply.
  entries. exact_arith. apply Vec4_eq; ring.
Qed.

Lemma transform_identity (p : vec4 Qc) :
  vec4_transformMat4 p createMat4 = p.
Proof.
  destruct p. unfold vec4_transformMat4, createMat4.
  entries. exact_arith. apply Vec4_eq; ring.
Qed.

(** What a successful [transformVector] returns, in exact arithmetic. *)
Lemma transformVector_exact (m : mat4 Qc) (p c : vec4 Qc) :
  transformVector (Some m) p = Some c ->
  let r := vec4_transformMat4 p m in
  v4_3 r <> 0 /\
  c = Vec4 (v4_0 r * (1 / v4_3 r)) (v4_1 r * (1 / v4_3 r))
           (v4_2 r * (1 / v4_3 r)) (v4_3 r * (1 / v4_3 r)).
Proof.
  unfold transformVector.
  destruct (truthy (v4_3 (vec4_transformMat4 p m))) eqn:Hw; [|discriminate].
  apply exact_truthy in Hw.
  replace (vec4_isFinite _) with true by reflexivity.
  cbn [andb]. intros [= <-]. split; [exact Hw | reflexivity].
Qed.

(** A side condition [C <> 0] that is a hypothesis up to ring equality. *)
Ltac nonzero :=
  change (Qcmake 1%Q (Qred_involutive 1%Q)) with (Q2Qc 1);
  match goal with
  | |- ?C <> _ =>
      match goal with
      | Hnz : ?P <> _ |- _ =>
          let HC := fresh in
          intro HC; apply Hnz; (replace P with C by ring); exact HC
      end
  end.

(** The point of the ray at depth 0 is the point that was projected. *)
Lemma lerp_core (N : mat4 Qc) (a b c w px py : Qc) (c0 c1 : vec4 Qc) :
  vec4_transformMat4 (Vec4 a b c w) N = Vec4 px py 0 1 ->
  w <> 0 ->
  transformVector (Some N) (Vec4 (a * (1 / w)) (b * (1 / w)) 0 1) = Some c0 ->
  transformVector (Some N) (Vec4 (a * (1 / w)) (b * (1 / w)) 1 1) = Some c1 ->
  v4_2 c0 <> v4_2 c1 ->
  vec2_lerp c0 c1 ((0 - v4_2 c0) / (v4_2 c1 - v4_2 c0)) = XY px py.
Proof.
  destruct N as [n0 n1 n2 n3 n4 n5 n6 n7 n8 n9 n10 n11 n12 n13 n14 n15].
  intros HN Hw H0 H1 Hz.
  apply transformVector_exact in H0. destruct H0 as [Hw0 ->].
  apply transformVector_exact in H1. destruct H1 as [Hw1 ->].
  pose proof (f_equal (@v4_0 Qc) HN) as Ex.
  pose proof (f_equal (@v4_1 Qc) HN) as Ey.
  pose proof (f_equal (@v4_2 Qc) HN) as Ez.
  pose proof (f_equal (@v4_3 Qc) HN) as Ew.
  clear HN.
  unfold vec2_lerp. unfold vec4_transformMat4 in *.
  entries. exact_arith.
  assert (H14 : n14 = (0 - (n2 * a + n6 * b + n10 * c)) / w).
  { transitivity (((n2 * a + n6 * b + n10 * c + n14 * w)
                   - (n2 * a + n6 * b + n10 * c)) / w);
      [field; exact Hw | rewrite Ez; reflexivity]. }
  assert (H15 : n15 = (1 - (n3 * a + n7 * b + n11 * c)) / w).
  { transitivity (((n3 * a + n7 * b + n11 * c + n15 * w)
                   - (n3 * a + n7 * b + n11 * c)) / w);
      [field; exact Hw | rewrite Ew; reflexivity]. }
  clear Ez Ew. subst n14 n15 px py.
  assert (HD0 : 1 - n11 * c <> 0).
  { intro HD. apply Hw0.
    match goal with |- ?l = _ => transitivity ((1 - n11 * c) / w) end;
      [field; exact Hw | rewrite HD; field; exact Hw]. }
  assert (HD1 : 1 + n11 * (w - c) <> 0).
  { intro HD. apply Hw1.
    match goal with |- ?l = _ => transitivity ((1 + n11 * (w - c)) / w) end;
      [field; exact Hw | rewrite HD; field; exact Hw]. }
  assert (Hn10 : n10 * w <> 0).
  { intro Hn. apply Hz.
    assert (Hn0 : n10 = 0).
    { transitivity (n10 * w / w); [field; exact Hw | rewrite Hn; field; exact Hw]. }
    subst n10. field. repeat split; nonzero. }
  clear Hw0 Hw1 Hz.
  f_equal; field; repeat split; nonzero.
Qed.

Lemma Mat4_eq {num : Type} (a0 a1 a2 a3 a4 a5 a6 a7 a8 a9 a10 a11 a12 a13 a14 a15
    b0 b1 b2 b3 b4 b5 b6 b7 b8 b9 b10 b11 b12 b13 b14 b15 : num) :
  a0 = b0 -> a1 = b1 -> a2 = b2 -> a3 = b3 ->
  a4 = b4 -> a5 = b5 -> a6 = b6 -> a7 = b7 ->
  a8 = b8 -> a9 = b9 -> a10 = b10 -> a11 = b11 ->
  a12 = b12 -> a13 = b13 -> a14 = b14 -> a15 = b15 ->
  Mat4 a0 a1 a2 a3 a4 a5 a6 a7 a8 a9 a10 a11 a12 a13 a14 a15 =
  Mat4 b0 b1 b2 b3 b4 b5 b6 b7 b8 b9 b10 b11 b12 b13 b14 b15.
Proof. intros. subst. reflexivity. Qed.

(** What [mat4_invert] returns is the inverse, on both sides. *)
Lemma mat4_invert_inverse (a n : mat4 Qc) :
  mat4_invert a = Some n ->
  mat4_multiply n a = createMat4 /\ mat4_multiply a n = createMat4.
Proof.
  destruct a as [a00 a01 a02 a03 a10 a11 a12 a13 a20 a21 a22 a23 a30 a31 a32 a33].
  unfold mat4_invert.
  match goal with |- context [truthy ?d] => destruct (truthy d) eqn:Hdet end;
    cbn [negb]; [|discriminate].
  apply exact_truthy in Hdet.
  intros [= <-]. unfold mat4_multiply, createMat4.
  entries. exact_arith.
  match type of Hdet with
  | ?det <> _ =>
      assert (Hd : det * (1 / det) = 1) by (field; exact Hdet);
      generalize dependent (1 / det); intros d Hd; clear Hdet
  end.
  split; apply Mat4_eq;
    solve [ ring
          | match type of Hd with ?l = _ => transitivity l; [ring | exact Hd] end ].
Qed.

(** C1, as amended. In exact arithmetic the round trip is exact: if
    [project] succeeds on the two-component point [p] (its image is
    normalizable), both endpoints of the ray through the resulting pixel
    exist and their [z] differ, then [unproject] of that pixel returns [p],
    for either value of [topLeft] used on both calls. *)
Theorem round_trip_exact (E : Platform Qc) opts v log px py topLeft q
    coord0 coord1 :
  Viewport.constructor E opts = Return (v, log) ->
  Viewport.project v (XY px py) topLeft = Return q ->
  ray v q topLeft = Some (coord0, coord1) ->
  v4_2 coord0 <> v4_2 coord1 ->
  Viewport.unproject v q topLeft = Return (Some (XY px py)).
Proof.
  intros Hc Hp Hray Hz.
  destruct (constructor_fields E opts v log Hc) as (_ & _ & _ & _ & _ & Hinv & _).
  rewrite unproject_ray, Hray. cbv zeta.
  destruct (strict_eq (v4_2 coord0) (v4_2 coord1)) eqn:Heq;
    [apply Qc_eq_bool_correct in Heq; contradiction|].
  clear Heq.
  unfold Viewport.project in Hp.
  replace (isFinite _ && isFinite _ && isFinite _) with true in Hp
    by reflexivity.
  cbn [assert bind] in Hp.
  unfold Viewport.projectFlat, Viewport._projectFlat in Hp.
  cbn [coord_0 coord_1 coord_2 default] in Hp.
  destruct (transformVector _ _) as [r|] eqn:Hr in Hp; [|discriminate].
  apply transformVector_exact in Hr. cbv zeta in Hr. destruct Hr as [Hw Hr].
  destruct (vec4_transformMat4 (Vec4 px py zero one)
              (Viewport.pixelProjectionMatrix v)) as [a b c w] eqn:HR.
  cbn [v4_0 v4_1 v4_2 v4_3] in Hw, Hr. subst r.
  cbn [v4_0 v4_1] in Hp. injection Hp as <-.
  unfold ray in Hray. cbn [coord_0 coord_1] in Hray.
  destruct (Viewport.pixelUnprojectionMatrix v) as [N|] eqn:HN;
    [|discriminate].
  symmetry in Hinv. apply mat4_invert_inverse in Hinv. destruct Hinv as [HNM _].
  match type of Hray with
  | context [Vec4 _ ?y2 zero one] =>
      replace y2 with (b * (1 / w)) in Hray
        by (destruct topLeft; [exact_arith; ring | reflexivity])
  end.
  destruct (transformVector (Some N) (Vec4 _ _ zero one)) as [c0|] eqn:H0 in Hray;
    [|discriminate].
  destruct (transformVector (Some N) (Vec4 _ _ one one)) as [c1|] eqn:H1 in Hray;
    [|discriminate].
  injection Hray as <- <-.
  cbn [shaped_like coord_2 default].
  do 2 f_equal.
  apply (lerp_core N a b c w); try assumption.
  rewrite <- HR, transform_multiply, HNM. apply transform_identity.
Qed.

Lemma transform_zero (m : mat4 Qc) :
  vec4_transformMat4 (Vec4 0 0 0 0) m = Vec4 0 0 0 0.
Proof.
  destruct m. unfold vec4_transformMat4.
  entries. exact_arith. apply Vec4_eq; ring.
Qed.

(** C2, as amended. Singular-matrix safety in exact arithmetic: when the
    package calls of the constructor return, the constructor returns an
    instance; if the pixel projection matrix of that instance is not
    invertible (no matrix multiplies it to the identity, or it sends a
    non-zero vector to zero), the unprojection matrix is absent, the
    warning is logged once and every [unproject] call returns [null]. *)
Theorem singular_matrix_safety (E : Platform Qc) opts :
  package_calls E opts = Return tt ->
  exists v log,
    Viewport.constructor E opts = Return (v, log) /\
    ((forall N,
        mat4_multiply N (Viewport.pixelProjectionMatrix v) <> createMat4) \/
     (exists x,
        x <> Vec4 0 0 0 0 /\
        vec4_transformMat4 x (Viewport.pixelProjectionMatrix v) =
          Vec4 0 0 0 0) ->
     Viewport.pixelUnprojectionMatrix v = None /\
     log = ["Pixel project matrix not invertible"%string] /\
     forall xyz topLeft, Viewport.unproject v xyz topLeft = Return None).
Proof.
  intros Hcalls.
  destruct (constructor_returns E opts Hcalls) as (v & log & Hc);
    [right; reflexivity|].
  exists v, log. split; [exact Hc|].
  intros Hsingular.
  destruct (constructor_fields E opts v log Hc)
    as (_ & _ & _ & _ & _ & Hinv & Hlog).
  assert (Hnone : Viewport.pixelUnprojectionMatrix v = None).
  { destruct (Viewport.pixelUnprojectionMatrix v) as [N|]; [|reflexivity].
    exfalso. symmetry in Hinv. apply mat4_invert_inverse in Hinv.
    destruct Hinv as [HNM _].
    destruct Hsingular as [Hno | (x & Hx & Hker)].
    - exact (Hno N HNM).
    - apply Hx.
      rewrite <- (transform_identity x), <- HNM, <- transform_multiply, Hker.
      apply transform_zero. }
  rewrite Hnone in Hlog.
  split; [exact Hnone|]. split; [exact Hlog|].
  intros xyz topLeft. apply unproject_without_matrix. exact Hnone.
Qed.

(** C3, as amended. In exact arithmetic the unprojection matrix of a
    constructed instance, when it exists, is the inverse of the pixel
    projection matrix: their product is the identity, on either side. *)
Theorem inverse_product_exact (E : Platform Qc) opts v log N :
  Viewport.constructor E opts = Return (v, log) ->
  Viewport.pixelUnprojectionMatrix v = Some N ->
  mat4_multiply N (Viewport.pixelProjectionMatrix v) = createMat4 /\
  mat4_multiply (Viewport.pixelProjectionMatrix v) N = createMat4.
Proof.
  intros Hc HN.
  destruct (constructor_fields E opts v log Hc)
    as (_ & _ & _ & _ & _ & Hinv & _).
  rewrite HN in Hinv. symmetry in Hinv.
  exact (mat4_invert_inverse _ _ Hinv).
Qed.

(** *** Further properties in exact arithmetic *)

Lemma exact_two_nonzero : @two Qc _ <> 0.
Proof. intros Heq. apply (f_equal this) in Heq. vm_compute in Heq. discriminate. Qed.

Lemma mat4_multiply_identity_l (a : mat4 Qc) :
  mat4_multiply createMat4 a = a.
Proof.
  destruct a. unfold mat4_multiply, createMat4.
  entries. exact_arith. apply Mat4_eq; ring.
Qed.

Lemma mat4_multiply_identity_r (a : mat4 Qc) :
  mat4_multiply a createMat4 = a.
Proof.
  destruct a. unfold mat4_multiply, createMat4.
  entries. exact_arith. apply Mat4_eq; ring.
Qed.

(** X5. In exact arithmetic offsets in meters add up: moving a point by
    [a] and then by [b] is moving it by [a + b], and moving it by the zero
    offset leaves it where it is.  The shift does not depend on the point,
    only on the distance scales of the viewport. *)
Theorem addMeters_composes (v : Viewport.t Qc) (p : coord Qc)
    (a b : vec3 Qc) :
  Viewport._addMetersToLngLat v p
    (Viewport.coord_of_vec3 (coord_add3 a b)) =
    (q <- Viewport._addMetersToLngLat v p (Viewport.coord_of_vec3 a) ;;
     Viewport._addMetersToLngLat v q (Viewport.coord_of_vec3 b)) /\
  Viewport._addMetersToLngLat v p
    (Viewport.coord_of_vec3 (Vec3 0 0 0)) = Return p.
Proof.
  unfold Viewport._addMetersToLngLat, Viewport._metersToLngLatDelta,
    Viewport.coord_of_vec3, coord_add3.
  destruct a as [ax ay az], b as [bx by' bz].
  destruct (pixelsPerMeter (Viewport.distanceScales v)) as [p0 p1 p2].
  destruct (degreesPerPixel (Viewport.distanceScales v))
    as [d0 d1 d2].
  split; destruct p as [lng lat|lng lat Z];
    cbn; exact_arith; do 2 f_equal; ring.
Qed.

(** X6. On an instance that was constructed without a [position],
    [getMercatorParams] returns longitude 0 and latitude 0 in exact
    arithmetic, also when the viewport is anchored at another longitude
    and latitude: the method reads [this.longitude] and [this.latitude],
    which the constructor never assigns. *)
Theorem getMercatorParams_without_position (E : Platform Qc) opts v log :
  Viewport.constructor E opts = Return (v, log) ->
  Opts.position opts = None ->
  Viewport.getMercatorParams v =
    Return {| Viewport.longitude := 0; Viewport.latitude := 0 |}.
Proof.
  intros Hc Hpos.
  destruct (constructor_anchor E opts v log Hc) as (_ & Hoff & _).
  rewrite Hpos in Hoff.
  unfold Viewport.getMercatorParams, Viewport._addMetersToLngLat,
    Viewport._metersToLngLatDelta, Viewport.coord_of_vec3.
  rewrite Hoff.
  destruct (pixelsPerMeter (Viewport.distanceScales v)) as [p0 p1 p2].
  destruct (degreesPerPixel (Viewport.distanceScales v)) as [d0 d1 d2].
  cbn. exact_arith. do 2 f_equal; ring.
Qed.

(** X7. With a model matrix, [getMatrices] returns matrices for model
    coordinates: in exact arithmetic, transforming a vector by the returned
    [modelViewProjectionMatrix] or [pixelProjectionMatrix] is applying the
    model matrix first and the stored matrix after, and the returned
    [pixelUnprojectionMatrix], when there is one, is the inverse of the
    returned [pixelProjectionMatrix], on both sides. *)
Theorem getMatrices_with_model (v : Viewport.t Qc) (model : mat4 Qc)
    (p : vec4 Qc) :
  let o := Viewport.getMatrices v (Some model) in
  vec4_transformMat4 p (Viewport.o_modelViewProjectionMatrix o) =
    vec4_transformMat4 (vec4_transformMat4 p model)
      (Viewport.viewProjectionMatrix v) /\
  vec4_transformMat4 p (Viewport.o_pixelProjectionMatrix o) =
    vec4_transformMat4 (vec4_transformMat4 p model)
      (Viewport.pixelProjectionMatrix v) /\
  (forall N, Viewport.o_pixelUnprojectionMatrix o = Some N ->
     mat4_multiply N (Viewport.o_pixelProjectionMatrix o) = createMat4 /\
     mat4_multiply (Viewport.o_pixelProjectionMatrix o) N = createMat4).
Proof.
  cbn. split; [symmetry; apply transform_multiply|].
  split; [symmetry; apply transform_multiply|].
  intros N HN. exact (mat4_invert_inverse _ _ HN).
Qed.

(** X8. For a constructed instance the identity as model matrix changes
    nothing in exact arithmetic: [getMatrices] returns what it returns
    without a model matrix, which is the matrices and sizes stored in the
    instance. *)
Theorem getMatrices_identity_model (E : Platform Qc) opts v log :
  Viewport.constructor E opts = Return (v, log) ->
  Viewport.getMatrices v (Some createMat4) = Viewport.getMatrices v None /\
  Viewport.o_pixelProjectionMatrix (Viewport.getMatrices v None) =
    Viewport.pixelProjectionMatrix v /\
  Viewport.o_pixelUnprojectionMatrix (Viewport.getMatrices v None) =
    Viewport.pixelUnprojectionMatrix v /\
  Viewport.o_modelViewProjectionMatrix (Viewport.getMatrices v None) =
    Viewport.viewProjectionMatrix v.
Proof.
  intros Hc.
  destruct (constructor_fields E opts v log Hc)
    as (_ & _ & _ & _ & _ & Hinv & _).
  split; [|repeat split].
  unfold Viewport.getMatrices.
  rewrite !mat4_multiply_identity_r, <- Hinv. reflexivity.
Qed.

(** X9. In exact arithmetic the view-projection matrix of a constructed
    instance is the product of its projection matrix and its view matrix,
    in that order. *)
Theorem viewProjection_is_product (E : Platform Qc) opts v log :
  Viewport.constructor E opts = Return (v, log) ->
  Viewport.viewProjectionMatrix v =
    mat4_multiply (Viewport.projectionMatrix v) (Viewport.viewMatrix v).
Proof.
  intros Hc.
  destruct (constructor_matrices E opts v log Hc) as (Hvpm & _).
  rewrite Hvpm, mat4_multiply_identity_l. reflexivity.
Qed.

(** X10. The stored inverse of the view matrix: for a view matrix that
    [mat4_invert] rejects, [viewMatrixInverse] is the view matrix itself;
    otherwise it is, in exact arithmetic, the inverse of the view matrix on
    both sides. *)
Theorem viewMatrixInverse_or_fallback (E : Platform Qc) opts v log :
  Viewport.constructor E opts = Return (v, log) ->
  match mat4_invert (Viewport.viewMatrix v) with
  | None => Viewport.viewMatrixInverse v = Viewport.viewMatrix v
  | Some _ =>
      mat4_multiply (Viewport.viewMatrixInverse v) (Viewport.viewMatrix v) =
        createMat4 /\
      mat4_multiply (Viewport.viewMatrix v) (Viewport.viewMatrixInverse v) =
        createMat4
  end.
Proof.
  intros Hc.
  destruct (constructor_matrices E opts v log Hc) as (_ & Hvmi & _).
  rewrite Hvmi.
  destruct (mat4_invert (Viewport.viewMatrix v)) as [N|] eqn:HN;
    [|reflexivity].
  exact (mat4_invert_inverse _ _ HN).
Qed.

(** X11. How [project] maps onto the window.  With [c] the clip
    coordinates of the point (its image under the view-projection matrix),
    and when the fourth component of [c] is not zero, [project] without
    [topLeft] returns
    [((cx/cw + 1) * width/2, (1 - cy/cw) * height/2, 0)]: the [y] it
    returns by default already grows downwards from the top of the
    window. *)
Theorem project_window_mapping (E : Platform Qc) opts v log (x y z : Qc) :
  Viewport.constructor E opts = Return (v, log) ->
  let c :=
    vec4_transformMat4 (Vec4 x y z 1) (Viewport.viewProjectionMatrix v) in
  v4_3 c <> 0 ->
  Viewport.project v (XYZ x y z) false =
    Return (XYZ ((v4_0 c / v4_3 c + 1) * (Viewport.width v / two))
                ((1 - v4_1 c / v4_3 c) * (Viewport.height v / two))
                0).
Proof.
  intros Hc c Hw.
  destruct (constructor_matrices E opts v log Hc) as (_ & _ & Hppm).
  unfold Viewport.project.
  replace (isFinite _ && isFinite _ && isFinite _) with true by reflexivity.
  cbn [assert bind].
  unfold Viewport.projectFlat, Viewport._projectFlat.
  cbn [coord_0 coord_1 coord_2 default].
  rewrite Hppm. unfold transformVector.
  rewrite <- transform_multiply.
  change (vec4_transformMat4 (Vec4 x y z one)
            (Viewport.viewProjectionMatrix v)) with c.
  revert Hw. destruct c as [xc yc zc wc]. cbn [v4_3]. intros Hw.
  generalize (Viewport.width v) (Viewport.height v). intros W Ht.
  unfold vec4_transformMat4, mat4_translate, mat4_scale, createMat4.
  entries.
  replace (vec4_isFinite _) with true by reflexivity.
  rewrite andb_true_r.
  pose proof exact_two_nonzero as H2.
  exact_arith.
  match goal with
  | |- context [Qc_eq_bool ?e (Q2Qc 0)] =>
      replace e with wc by ring
  end.
  destruct (Qc_eq_bool wc (Q2Qc 0)) eqn:Hwb; cbn [negb];
    [apply Qc_eq_bool_correct in Hwb; contradiction|].
  cbn [v4_0 v4_1]. do 2 f_equal; field; split; assumption.
Qed.

(** X12. The view matrix of a geospatial instance is its uncentered view
    matrix applied relative to the centre, with [y] flipped: the point [p]
    is transformed as the uncentered matrix transforms
    [(px - cx, cy - py, pz - cz)].  The view matrix of an instance that is
    not geospatial is its uncentered view matrix. *)
Theorem geospatial_view_is_centered (E : Platform Qc) opts v log :
  Viewport.constructor E opts = Return (v, log) ->
  if Viewport.isGeospatial v then
    exists c, Viewport.center v = Some c /\
      forall px py pz : Qc,
        vec4_transformMat4 (Vec4 px py pz 1) (Viewport.viewMatrix v) =
        vec4_transformMat4
          (Vec4 (px - v3_0 c) (v3_1 c - py) (pz - v3_2 c) 1)
          (Viewport.viewMatrixUncentered v)
  else Viewport.viewMatrix v = Viewport.viewMatrixUncentered v.
Proof.
  intros Hc.
  destruct (constructor_fields E opts v log Hc) as (_ & _ & Hgeo & _).
  destruct (constructor_anchor E opts v log Hc) as (_ & _ & _ & Ha).
  rewrite Hgeo. unfold Viewport.anchor in Ha.
  destruct (Opts.latitude opts) as [lat|], (Opts.longitude opts) as [lng|];
    cbn in Ha |- *; try (destruct Ha as (_ & Hv & _); exact Hv).
  destruct Ha as (c & _ & _ & Hcen & Hv).
  exists c. split; [exact Hcen|].
  intros px py pz. rewrite Hv.
  destruct c as [cx cy cz].
  destruct (Viewport.viewMatrixUncentered v).
  unfold vec4_transformMat4, mat4_translate, mat4_scale, mat4_multiply,
    createMat4, Viewport.vec3_negate.
  entries. exact_arith. apply Vec4_eq; ring.
Qed.

(** A linear combination of two vectors is transformed to the same
    combination of their images. *)
Lemma transform_linear (m : mat4 Qc) (p q : vec4 Qc) (a b : Qc) :
  vec4_transformMat4
    (Vec4 (a * v4_0 p + b * v4_0 q) (a * v4_1 p + b * v4_1 q)
          (a * v4_2 p + b * v4_2 q) (a * v4_3 p + b * v4_3 q)) m =
  Vec4 (a * v4_0 (vec4_transformMat4 p m) + b * v4_0 (vec4_transformMat4 q m))
       (a * v4_1 (vec4_transformMat4 p m) + b * v4_1 (vec4_transformMat4 q m))
       (a * v4_2 (vec4_transformMat4 p m) + b * v4_2 (vec4_transformMat4 q m))
       (a * v4_3 (vec4_transformMat4 p m) + b * v4_3 (vec4_transformMat4 q m)).
Proof.
  destruct m, p, q. unfold vec4_transformMat4.
  entries. exact_arith. apply Vec4_eq; ring.
Qed.

(** The point of the ray at depth [T] is projected back to the pixel the
    ray was cast through. *)
Lemma ray_core (M N : mat4 Qc) (x y T : Qc) (c0 c1 r : vec4 Qc) :
  mat4_multiply M N = createMat4 ->
  transformVector (Some N) (Vec4 x y 0 1) = Some c0 ->
  transformVector (Some N) (Vec4 x y 1 1) = Some c1 ->
  v4_2 c0 <> v4_2 c1 ->
  let p := vec2_lerp c0 c1 ((T - v4_2 c0) / (v4_2 c1 - v4_2 c0)) in
  transformVector (Some M) (Vec4 (coord_0 p) (coord_1 p) T 1) = Some r ->
  v4_0 r = x /\ v4_1 r = y.
Proof.
  intros HMN H0 H1 Hz p Hr.
  apply transformVector_exact in H0. destruct H0 as [Hw0 E0].
  apply transformVector_exact in H1. destruct H1 as [Hw1 E1].
  apply transformVector_exact in Hr. cbv zeta in Hr. destruct Hr as [Hw Hr].
  assert (I0 : vec4_transformMat4 (vec4_transformMat4 (Vec4 x y 0 1) N) M =
               Vec4 x y 0 1)
    by (rewrite transform_multiply, HMN; apply transform_identity).
  assert (I1 : vec4_transformMat4 (vec4_transformMat4 (Vec4 x y 1 1) N) M =
               Vec4 x y 1 1)
    by (rewrite transform_multiply, HMN; apply transform_identity).
  destruct (vec4_transformMat4 (Vec4 x y 0 1) N) as [a0 b0 g0 w0].
  destruct (vec4_transformMat4 (Vec4 x y 1 1) N) as [a1 b1 g1 w1].
  cbn [v4_0 v4_1 v4_2 v4_3] in Hw0, Hw1, E0, E1.
  subst c0 c1. subst p. unfold vec2_lerp in *.
  cbn [v4_0 v4_1 v4_2 v4_3 coord_0 coord_1] in *.
  exact_arith.
  repeat match goal with
         | I : context [@vec4_transformMat4 Qc ?inst _ _] |- _ =>
             progress change inst with exact in I
         end.
  assert (J0 : w0 * (1 / w0) = 1) by (field; exact Hw0).
  assert (J1 : w1 * (1 / w1) = 1) by (field; exact Hw1).
  remember (1 / w0) as i0 eqn:Ei0. clear Ei0.
  remember (1 / w1) as i1 eqn:Ei1. clear Ei1.
  assert (Hd : g1 * i1 - g0 * i0 <> 0).
  { intros Hd. apply Hz. symmetry.
    transitivity (g0 * i0 + (g1 * i1 - g0 * i0)); [ring|].
    rewrite Hd. ring. }
  set (t := (T - g0 * i0) / (g1 * i1 - g0 * i0)) in *.
  assert (Ht : t * (g1 * i1 - g0 * i0) = T - g0 * i0)
    by (subst t; field; exact Hd).
  clearbody t.
  set (al := (1 - t) * i0) in *. set (be := t * i1) in *.
  assert (Hlin :
    Vec4 (a0 * i0 + t * (a1 * i1 - a0 * i0))
         (b0 * i0 + t * (b1 * i1 - b0 * i0)) T 1 =
    Vec4 (al * v4_0 (Vec4 a0 b0 g0 w0) + be * v4_0 (Vec4 a1 b1 g1 w1))
         (al * v4_1 (Vec4 a0 b0 g0 w0) + be * v4_1 (Vec4 a1 b1 g1 w1))
         (al * v4_2 (Vec4 a0 b0 g0 w0) + be * v4_2 (Vec4 a1 b1 g1 w1))
         (al * v4_3 (Vec4 a0 b0 g0 w0) + be * v4_3 (Vec4 a1 b1 g1 w1))).
  { subst al be. cbn [v4_0 v4_1 v4_2 v4_3]. apply Vec4_eq.
    - ring.
    - ring.
    - transitivity (g0 * i0 + t * (g1 * i1 - g0 * i0)); [|ring].
      rewrite Ht. ring.
    - transitivity ((1 - t) * (w0 * i0) + t * (w1 * i1)); [|ring].
      rewrite J0, J1. ring. }
  rewrite Hlin, transform_linear, I0, I1 in Hw.
  rewrite Hlin, transform_linear, I0, I1 in Hr.
  cbn [v4_0 v4_1 v4_2 v4_3] in Hw, Hr.
  subst r. cbn [v4_0 v4_1].
  split; field; nonzero.
Qed.

(** X13. From a pixel to the world and back.  When both endpoints of
    the ray through the pixel [(x, y)] exist and their [z] differ,
    [unproject] returns a point [r], and in exact arithmetic [project]
    maps [r], taken at the target depth that was asked for, back to
    [(x, y, 0)] whenever it returns, for either value of [topLeft] used on
    both calls.  The depth has to be supplied again: [unproject] returns
    0 in its place. *)
Theorem unproject_then_project (E : Platform Qc) opts v log xyz topLeft
    coord0 coord1 :
  Viewport.constructor E opts = Return (v, log) ->
  ray v xyz topLeft = Some (coord0, coord1) ->
  v4_2 coord0 <> v4_2 coord1 ->
  exists r,
    Viewport.unproject v xyz topLeft = Return (Some r) /\
    forall q,
      Viewport.project v
        (XYZ (coord_0 r) (coord_1 r) (default (coord_2 xyz) 0)) topLeft =
        Return q ->
      q = XYZ (coord_0 xyz) (coord_1 xyz) 0.
Proof.
  intros Hc Hray Hz.
  destruct (constructor_fields E opts v log Hc)
    as (_ & _ & _ & _ & _ & Hinv & _).
  rewrite unproject_ray, Hray. cbv zeta.
  destruct (strict_eq (v4_2 coord0) (v4_2 coord1)) eqn:Heq;
    [apply Qc_eq_bool_correct in Heq; contradiction|].
  clear Heq.
  eexists. split; [reflexivity|]. intros q Hp.
  unfold Viewport.project in Hp.
  replace (isFinite _ && isFinite _ && isFinite _) with true in Hp
    by reflexivity.
  cbn [assert bind] in Hp.
  unfold Viewport.projectFlat, Viewport._projectFlat in Hp.
  cbn [coord_0 coord_1 coord_2 default] in Hp.
  destruct (transformVector _ _) as [rv|] eqn:Hr in Hp; [|discriminate].
  injection Hp as <-.
  unfold ray in Hray.
  destruct (Viewport.pixelUnprojectionMatrix v) as [N|] eqn:HN;
    [|discriminate].
  symmetry in Hinv. apply mat4_invert_inverse in Hinv.
  destruct Hinv as [_ HMN].
  destruct (transformVector (Some N) (Vec4 _ _ zero one)) as [c0|] eqn:H0
    in Hray; [|discriminate].
  destruct (transformVector (Some N) (Vec4 _ _ one one)) as [c1|] eqn:H1
    in Hray; [|discriminate].
  injection Hray as <- <-.
  replace (coord_0 (shaped_like xyz _)) with
    (coord_0 (vec2_lerp c0 c1
       ((default (coord_2 xyz) 0 - v4_2 c0) / (v4_2 c1 - v4_2 c0)))) in Hr
    by (destruct xyz; reflexivity).
  replace (coord_1 (shaped_like xyz _)) with
    (coord_1 (vec2_lerp c0 c1
       ((default (coord_2 xyz) 0 - v4_2 c0) / (v4_2 c1 - v4_2 c0)))) in Hr
    by (destruct xyz; reflexivity).
  destruct (ray_core _ _ _ _ _ _ _ _ HMN H0 H1 Hz Hr) as [-> ->].
  do 2 f_equal.
  destruct topLeft; [exact_arith; ring | reflexivity].
Qed.

(** X19. What [unproject] computes: when both endpoints of the ray exist
    and their [z] differ, the point returned lies on the line through the
    two endpoints, at the parameter where that line reaches the target
    depth (the third component of the argument, 0 when absent). *)
Theorem unproject_reaches_target_depth (v : Viewport.t Qc) xyz topLeft
    coord0 coord1 :
  ray v xyz topLeft = Some (coord0, coord1) ->
  v4_2 coord0 <> v4_2 coord1 ->
  exists t r,
    Viewport.unproject v xyz topLeft = Return (Some r) /\
    coord_0 r = v4_0 coord0 + t * (v4_0 coord1 - v4_0 coord0) /\
    coord_1 r = v4_1 coord0 + t * (v4_1 coord1 - v4_1 coord0) /\
    default (coord_2 xyz) 0 = v4_2 coord0 + t * (v4_2 coord1 - v4_2 coord0).
Proof.
  intros Hray Hz.
  rewrite unproject_ray, Hray. cbv zeta.
  destruct (strict_eq (v4_2 coord0) (v4_2 coord1)) eqn:Heq;
    [apply Qc_eq_bool_correct in Heq; contradiction|].
  clear Heq.
  exists ((default (coord_2 xyz) 0 - v4_2 coord0) /
          (v4_2 coord1 - v4_2 coord0)).
  eexists. split; [reflexivity|].
  split; [destruct xyz; reflexivity|].
  split; [destruct xyz; reflexivity|].
  generalize (default (coord_2 xyz) 0). intros T.
  destruct coord0 as [x0 y0 z0 w0], coord1 as [x1 y1 z1 w1].
  cbn [v4_2] in *.
  field. intros Hd. apply Hz. symmetry.
  transitivity (z0 + (z1 - z0)); [ring | rewrite Hd; ring].
Qed.

Lemma or_default_nonzero (o : option Qc) : or_default o one <> 0.
Proof.
  destruct o as [w|]; cbn [or_default];
    [destruct (truthy w) eqn:Hw; [apply exact_truthy; exact Hw|]|];
    intros Heq; apply (f_equal this) in Heq; vm_compute in Heq;
    discriminate.
Qed.

(** X20. In exact arithmetic the size of the window never makes the pixel
    projection matrix singular: a constructed instance lacks its
    unprojection matrix exactly when its view-projection matrix has no
    inverse. *)
Theorem unprojection_matrix_exists_iff (E : Platform Qc) opts v log :
  Viewport.constructor E opts = Return (v, log) ->
  (Viewport.pixelUnprojectionMatrix v = None <->
   mat4_invert (Viewport.viewProjectionMatrix v) = None).
Proof.
  intros Hc.
  destruct (constructor_fields E opts v log Hc)
    as (HW & HH & _ & _ & _ & Hinv & _).
  destruct (constructor_matrices E opts v log Hc) as (_ & _ & Hppm).
  rewrite Hinv, Hppm. clear Hinv Hppm.
  pose proof (or_default_nonzero (Opts.width opts)) as HW0.
  pose proof (or_default_nonzero (Opts.height opts)) as HH0.
  rewrite <- HW in HW0. rewrite <- HH in HH0. clear HW HH.
  revert HW0 HH0.
  generalize (Viewport.width v) (Viewport.height v). intros W Ht HW0 HH0.
  destruct (Viewport.viewProjectionMatrix v)
    as [a0 a1 a2 a3 a4 a5 a6 a7 a8 a9 a10 a11 a12 a13 a14 a15].
  unfold mat4_invert, mat4_multiply, mat4_translate, mat4_scale, createMat4.
  entries.
  pose proof exact_two_nonzero as H2.
  (* the determinant of the pixel projection matrix is a multiple of the
     determinant of the view-projection matrix *)
  match goal with
  | |- (if negb (truthy ?d1) then _ else _) = None <->
       (if negb (truthy ?d2) then _ else _) = None =>
      assert (Hk : d1 = (W / two) * (- Ht / two) * d2)
        by (exact_arith; field; exact H2);
      generalize dependent d1; generalize dependent d2
  end.
  intros d2 d1 Hk.
  assert (Hiff : d1 <> 0 <-> d2 <> 0).
  { subst d1. exact_arith. split.
    - intros Hd Hz. apply Hd. rewrite Hz. ring.
    - intros Hd Hz.
      apply Qcmult_integral in Hz. destruct Hz as [Hz|Hz]; [|contradiction].
      apply Qcmult_integral in Hz. destruct Hz as [Hz|Hz].
      + apply HW0. transitivity (W / Q2Qc 2 * Q2Qc 2);
          [field; exact H2 | rewrite Hz; ring].
      + apply HH0. transitivity (- (- Ht / Q2Qc 2 * Q2Qc 2));
          [field; exact H2 | rewrite Hz; ring]. }
  assert (Ht12 : truthy d1 = truthy d2).
  { destruct (truthy d1) eqn:T1, (truthy d2) eqn:T2; try reflexivity.
    - apply exact_truthy in T1. apply Hiff in T1. apply exact_truthy in T1.
      congruence.
    - apply exact_truthy in T2. apply Hiff in T2. apply exact_truthy in T2.
      congruence. }
  rewrite Ht12.
  destruct (truthy d2); cbn [negb]; split; intros; try reflexivity;
    discriminate.
Qed.

End ExactClaims.

(** ** The theorems at concrete viewports *)

Section Instances.

Lemma Qc_neq_by_value (a b : Qc) : this a <> this b -> a <> b.
Proof. intros Hne Heq. apply Hne. rewrite Heq. reflexivity. Qed.

Lemma round_trip_exact_witness :
  exists v log q coord0 coord1,
    Viewport.constructor Exact.platform exact_opts = Return (v, log) /\
    Viewport.project v (XY (of_Z 1) (of_Z 2)) true = Return q /\
    ray v q true = Some (coord0, coord1) /\
    v4_2 coord0 <> v4_2 coord1 /\
    Viewport.unproject v q true = Return (Some (XY (of_Z 1) (of_Z 2))).
Proof.
  do 5 eexists.
  split; [vm_compute; reflexivity|].
  split; [vm_compute; reflexivity|].
  split; [vm_compute; reflexivity|].
  split; [apply Qc_neq_by_value; vm_compute; discriminate|].
  eapply (round_trip_exact Exact.platform exact_opts);
    [ vm_compute; reflexivity | vm_compute; reflexivity
    | vm_compute; reflexivity
    | apply Qc_neq_by_value; vm_compute; discriminate ].
Defined.

Lemma inverse_product_exact_witness :
  exists v log N,
    Viewport.constructor Exact.platform exact_opts = Return (v, log) /\
    Viewport.pixelUnprojectionMatrix v = Some N /\
    mat4_multiply N (Viewport.pixelProjectionMatrix v) = createMat4 /\
    mat4_multiply (Viewport.pixelProjectionMatrix v) N = createMat4.
Proof.
  do 3 eexists.
  split; [vm_compute; reflexivity|].
  split; [vm_compute; reflexivity|].
  eapply (inverse_product_exact Exact.platform exact_opts);
    vm_compute; reflexivity.
Defined.

Local Open Scope float_scope.

Lemma width_height_fallback_witness :
  exists v log,
    Viewport.constructor Js.platform
      (Js.opts (Some 0) (Some 600) None None) = Return (v, log) /\
    Viewport.width v = 1 /\ Viewport.height v = 600.
Proof.
  destruct (Viewport.constructor Js.platform
              (Js.opts (Some 0) (Some 600) None None))
    as [[v log]|e] eqn:Hc; [|vm_compute in Hc; discriminate].
  exists v, log. split; [reflexivity|].
  exact (width_height_fallback Js.platform _ v log Hc).
Defined.

Lemma degenerate_ray_witness :
  exists v log coord0 coord1,
    Viewport.constructor Js.platform
      (Js.opts (Some 2) (Some 2) None (Some swap_xz)) = Return (v, log) /\
    ray v (XY 1 (-6)) false = Some (coord0, coord1) /\
    (v4_2 coord0 =? v4_2 coord1) = true /\
    is_finite (v4_0 coord1 - v4_0 coord0) = true /\
    exists r,
      Viewport.unproject v (XY 1 (-6)) false = Return (Some r) /\
      (coord_0 r =? v4_0 coord0) = true /\ is_finite (coord_0 r) = true.
Proof.
  do 4 eexists.
  split; [vm_compute; reflexivity|].
  split; [vm_compute; reflexivity|].
  split; [vm_compute; reflexivity|].
  split; [vm_compute; reflexivity|].
  edestruct degenerate_ray as (r & Hr & _ & _ & Hx & _);
    [ | | exists r; split; [exact Hr|]; apply Hx ];
    vm_compute; reflexivity.
Defined.

(** Two viewports that differ in their distance scales only are reported
    equal. *)
Lemma equals_definition_witness :
  let doubled := Vec3 2 2 2 in
  let scaled :=
    {| Opts.id := None; Opts.x := None; Opts.y := None;
       Opts.width := Some 800; Opts.height := Some 600;
       Opts.viewMatrix := None; Opts.projectionMatrix := None;
       Opts.fovy := None; Opts.near := None; Opts.far := None;
       Opts.longitude := None; Opts.latitude := None; Opts.zoom := None;
       Opts.position := None; Opts.modelMatrix := None;
       Opts.distanceScales :=
         Some (Build_DistanceScales doubled doubled doubled doubled);
       Opts.focalDistance := None |} in
  exists v1 log1 v2 log2,
    Viewport.constructor Js.platform example_opts = Return (v1, log1) /\
    Viewport.constructor Js.platform scaled = Return (v2, log2) /\
    Viewport.distanceScales v1 <> Viewport.distanceScales v2 /\
    Viewport.equals Js.platform v1 (Viewport.VViewport v2) = true.
Proof.
  intros doubled scaled. do 4 eexists.
  split; [vm_compute; reflexivity|].
  split; [vm_compute; reflexivity|].
  split; [vm_compute; discriminate|].
  apply (proj1 (equals_definition Js.platform _)).
  eexists. split; [reflexivity|]. by_evaluation.
Defined.

(** *** The further properties *)

Lemma results_have_no_depth_witness :
  exists v log q r,
    Viewport.constructor Js.platform camera_opts = Return (v, log) /\
    Viewport.project v (XYZ 1 2 3) true = Return q /\
    Viewport.unproject v (XYZ 1 2 3) true = Return (Some r) /\
    coord_2 q = Some 0 /\ coord_2 r = Some 0.
Proof.
  destruct (Viewport.constructor Js.platform camera_opts)
    as [[v log]|e] eqn:Hc; [|vm_compute in Hc; discriminate].
  destruct (Viewport.project v (XYZ 1 2 3) true) as [q|e] eqn:Hq;
    [|vm_compute in Hc; injection Hc as <- _; vm_compute in Hq;
      discriminate].
  destruct (Viewport.unproject v (XYZ 1 2 3) true) as [[r|]|e] eqn:Hr;
    try (vm_compute in Hc; injection Hc as <- _; vm_compute in Hr;
         discriminate).
  exists v, log, q, r.
  split; [reflexivity|]. split; [exact Hq|]. split; [exact Hr|].
  destruct (results_have_no_depth v (XYZ 1 2 3) true) as [Hp Hu].
  destruct (Hp q Hq) as [Lq Zq]. destruct (Hu r Hr) as [Lr Zr].
  split; [apply Zq; exact Lq | apply Zr; exact Lr].
Defined.

Lemma unused_options_witness :
  Viewport.constructor Js.platform
    (with_perspective (Some nan) None None
       (Js.opts None None None (Some swap_xz))) =
  Viewport.constructor Js.platform (Js.opts None None None (Some swap_xz)) /\
  Viewport.constructor Js.platform
    (with_modelMatrix (Some swap_xz) example_opts) =
  Viewport.constructor Js.platform example_opts /\
  Viewport.constructor anchored_platform
    (with_scales (Some Exact.unit_scales) anchored_opts) =
  Viewport.constructor anchored_platform anchored_opts.
Proof.
  split; [|split].
  - apply (proj1 (unused_options Js.platform _)). discriminate.
  - apply (proj1 (proj2 (unused_options Js.platform _))). reflexivity.
  - apply (proj2 (proj2 (unused_options anchored_platform _))). reflexivity.
Defined.

Lemma id_never_empty_witness :
  exists v log,
    Viewport.constructor Js.platform example_opts = Return (v, log) /\
    Viewport.id v <> ""%string /\ Viewport.id v = "Viewport"%string.
Proof.
  destruct (Viewport.constructor Js.platform example_opts)
    as [[v log]|e] eqn:Hc; [|vm_compute in Hc; discriminate].
  exists v, log. split; [reflexivity|].
  exact (id_never_empty Js.platform example_opts v log Hc).
Defined.

Lemma warning_iff_no_unprojection_witness :
  exists v log,
    Viewport.constructor Js.platform (Js.opts None None None (Some flat_x)) =
      Return (v, log) /\
    log <> [] /\
    forall xyz topLeft, Viewport.unproject v xyz topLeft = Return None.
Proof.
  destruct (Viewport.constructor Js.platform
              (Js.opts None None None (Some flat_x)))
    as [[v log]|e] eqn:Hc; [|vm_compute in Hc; discriminate].
  exists v, log. split; [reflexivity|].
  assert (Hlog : log <> []).
  { vm_compute in Hc. injection Hc as _ <-. discriminate. }
  split; [exact Hlog|].
  exact (proj2 (proj2 (warning_iff_no_unprojection Js.platform _ v log Hc))
           Hlog).
Defined.

Lemma equals_itself_witness :
  exists v log,
    Viewport.constructor Js.platform example_opts = Return (v, log) /\
    Viewport.equals Js.platform v (Viewport.VViewport v) = true.
Proof.
  destruct (Viewport.constructor Js.platform example_opts)
    as [[v log]|e] eqn:Hc; [|vm_compute in Hc; discriminate].
  exists v, log. split; [reflexivity|].
  rewrite (equals_itself Js.platform example_opts v log Hc).
  vm_compute in Hc. injection Hc as <- _. vm_compute. reflexivity.
Defined.

Lemma getMercatorParams_binary64_witness :
  exists v log,
    Viewport.constructor Js.platform example_opts = Return (v, log) /\
    Viewport.getMercatorParams v =
      Return {| Viewport.longitude := 0; Viewport.latitude := 0 |}.
Proof.
  destruct (Viewport.constructor Js.platform example_opts)
    as [[v log]|e] eqn:Hc; [|vm_compute in Hc; discriminate].
  exists v, log. split; [reflexivity|].
  apply (getMercatorParams_binary64 Js.platform example_opts v log Hc);
    try reflexivity;
    vm_compute in Hc; injection Hc as <- _; reflexivity.
Defined.

Lemma constructor_outcome_witness :
  package_calls rejecting_platform equator_opts =
    Throw (AssertionError None) /\
  Viewport.constructor rejecting_platform equator_opts =
    Throw (AssertionError None).
Proof.
  assert (Hcalls : package_calls rejecting_platform equator_opts =
                   Throw (AssertionError None))
    by (vm_compute; reflexivity).
  split; [exact Hcalls|].
  pose proof (constructor_outcome rejecting_platform equator_opts) as Hout.
  rewrite Hcalls in Hout. exact Hout.
Defined.

Local Open Scope Qc_scope.

Lemma singular_matrix_safety_witness :
  exists v log,
    Viewport.constructor Exact.platform flat_opts = Return (v, log) /\
    vec4_transformMat4 (Vec4 1 0 0 0) (Viewport.pixelProjectionMatrix v) =
      Vec4 0 0 0 0 /\
    Viewport.pixelUnprojectionMatrix v = None /\
    log = ["Pixel project matrix not invertible"%string] /\
    forall xyz topLeft, Viewport.unproject v xyz topLeft = Return None.
Proof.
  destruct (singular_matrix_safety Exact.platform flat_opts)
    as (v & log & Hc & Hsingular); [vm_compute; reflexivity|].
  assert (Hker : vec4_transformMat4 (Vec4 1 0 0 0)
                   (Viewport.pixelProjectionMatrix v) = Vec4 0 0 0 0)
    by (vm_compute in Hc; injection Hc as <- _; vm_compute; reflexivity).
  exists v, log. split; [exact Hc|]. split; [exact Hker|].
  apply Hsingular. right. exists (Vec4 1 0 0 0). split; [|exact Hker].
  intros Heq. apply (Qc_neq_by_value 1 0); [vm_compute; discriminate|].
  exact (f_equal (@v4_0 Qc) Heq).
Defined.

Lemma scale_invariant_witness :
  exists v1 log1 v2 log2,
    Viewport.constructor zooming_platform anchored_opts =
      Return (v1, log1) /\
    Viewport.zoom v1 = 1 /\ Viewport.scale v1 = of_Z 2 /\
    Viewport.constructor zooming_platform unzoomed_opts =
      Return (v2, log2) /\
    Viewport.zoom v2 = of_Z 7 /\ Viewport.scale v2 = of_Z 128 /\
    forall calls,
      Viewport.scale (lifetime zooming_platform v2 calls) = of_Z 128.
Proof.
  destruct (proj1 (scale_invariant zooming_platform anchored_opts))
    as (v1 & log1 & Hc1);
    [vm_compute; reflexivity | left; discriminate |].
  destruct (proj1 (scale_invariant zooming_platform unzoomed_opts))
    as (v2 & log2 & Hc2);
    [vm_compute; reflexivity | left; discriminate |].
  destruct (proj2 (scale_invariant zooming_platform anchored_opts)
              v1 log1 Hc1) as (Hlife1 & Hgiven1 & _).
  destruct (proj2 (scale_invariant zooming_platform unzoomed_opts)
              v2 log2 Hc2) as (Hlife2 & _ & Hdefault2 & _).
  assert (Hz1 : Viewport.zoom v1 = 1)
    by (apply Hgiven1; reflexivity).
  assert (Hz2 : Viewport.zoom v2 = of_Z 7).
  { specialize (Hdefault2 eq_refl (of_Z 7) (of_Z 3) eq_refl eq_refl eq_refl).
    injection Hdefault2 as <-. reflexivity. }
  assert (Hs2 : Viewport.scale v2 = of_Z 128).
  { destruct (Hlife2 []) as (Hs & _). cbn [lifetime] in Hs.
    rewrite Hs, Hz2. vm_compute. reflexivity. }
  exists v1, log1, v2, log2.
  split; [exact Hc1|]. split; [exact Hz1|].
  split.
  { destruct (Hlife1 []) as (Hs & _). cbn [lifetime] in Hs.
    rewrite Hs, Hz1. vm_compute. reflexivity. }
  split; [exact Hc2|]. split; [exact Hz2|]. split; [exact Hs2|].
  intros calls. destruct (Hlife2 calls) as (_ & _ & Hs).
  rewrite Hs. exact Hs2.
Defined.

Lemma getMercatorParams_without_position_witness :
  exists v log,
    Viewport.constructor anchored_platform anchored_opts = Return (v, log) /\
    Viewport.isGeospatial v = true /\
    Viewport.getMercatorParams v =
      Return {| Viewport.longitude := 0; Viewport.latitude := 0 |}.
Proof.
  destruct (Viewport.constructor anchored_platform anchored_opts)
    as [[v log]|e] eqn:Hc; [|vm_compute in Hc; discriminate].
  exists v, log. split; [reflexivity|].
  split; [vm_compute in Hc; injection Hc as <- _; reflexivity|].
  apply (getMercatorParams_without_position anchored_platform anchored_opts
           v log Hc).
  reflexivity.
Defined.

Lemma getMatrices_with_model_witness :
  exists v log N,
    Viewport.constructor Exact.platform exact_opts = Return (v, log) /\
    Viewport.o_pixelUnprojectionMatrix
      (Viewport.getMatrices v (Some doubling)) = Some N /\
    mat4_multiply N
      (Viewport.o_pixelProjectionMatrix
         (Viewport.getMatrices v (Some doubling))) = createMat4.
Proof.
  do 3 eexists.
  split; [vm_compute; reflexivity|].
  split; [vm_compute; reflexivity|].
  eapply (proj2 (proj2 (getMatrices_with_model _ doubling
                          (Vec4 0 0 0 1)))).
  vm_compute. reflexivity.
Defined.

Lemma getMatrices_identity_model_witness :
  exists v log,
    Viewport.constructor Exact.platform exact_opts = Return (v, log) /\
    Viewport.getMatrices v (Some createMat4) = Viewport.getMatrices v None.
Proof.
  destruct (Viewport.constructor Exact.platform exact_opts)
    as [[v log]|e] eqn:Hc; [|vm_compute in Hc; discriminate].
  exists v, log. split; [reflexivity|].
  exact (proj1 (getMatrices_identity_model Exact.platform exact_opts v log
                  Hc)).
Defined.

Lemma viewProjection_is_product_witness :
  exists v log,
    Viewport.constructor Exact.platform exact_opts = Return (v, log) /\
    Viewport.viewProjectionMatrix v =
      mat4_multiply (Viewport.projectionMatrix v) (Viewport.viewMatrix v).
Proof.
  destruct (Viewport.constructor Exact.platform exact_opts)
    as [[v log]|e] eqn:Hc; [|vm_compute in Hc; discriminate].
  exists v, log. split; [reflexivity|].
  exact (viewProjection_is_product Exact.platform exact_opts v log Hc).
Defined.

Lemma viewMatrixInverse_or_fallback_witness :
  exists v log,
    Viewport.constructor Exact.platform exact_opts = Return (v, log) /\
    mat4_multiply (Viewport.viewMatrixInverse v) (Viewport.viewMatrix v) =
      createMat4.
Proof.
  destruct (Viewport.constructor Exact.platform exact_opts)
    as [[v log]|e] eqn:Hc; [|vm_compute in Hc; discriminate].
  exists v, log. split; [reflexivity|].
  pose proof (viewMatrixInverse_or_fallback Exact.platform exact_opts v log
                Hc) as Hinv.
  destruct (mat4_invert (Viewport.viewMatrix v)) as [N|] eqn:HN;
    [exact (proj1 Hinv)|].
  vm_compute in Hc. injection Hc as <- _. vm_compute in HN. discriminate.
Defined.

Lemma project_window_mapping_witness :
  exists v log,
    Viewport.constructor Exact.platform exact_opts = Return (v, log) /\
    Viewport.project v (XYZ 1 1 0) false =
      Return (XYZ (Q2Qc (12 # 5)) (Q2Qc (4 # 5)) 0).
Proof.
  destruct (Viewport.constructor Exact.platform exact_opts)
    as [[v log]|e] eqn:Hc; [|vm_compute in Hc; discriminate].
  exists v, log. split; [reflexivity|].
  rewrite (project_window_mapping Exact.platform exact_opts v log 1 1 0 Hc);
    vm_compute in Hc; injection Hc as <- _;
    [ vm_compute; reflexivity
    | apply Qc_neq_by_value; vm_compute; discriminate ].
Defined.

Lemma geospatial_view_is_centered_witness :
  exists v log c,
    Viewport.constructor anchored_platform anchored_opts = Return (v, log) /\
    Viewport.center v = Some c /\
    c = Vec3 (of_Z 3) (of_Z 7) 0 /\
    forall px py pz : Qc,
      vec4_transformMat4 (Vec4 px py pz 1) (Viewport.viewMatrix v) =
      vec4_transformMat4
        (Vec4 (px - v3_0 c) (v3_1 c - py) (pz - v3_2 c) 1)
        (Viewport.viewMatrixUncentered v).
Proof.
  destruct (Viewport.constructor anchored_platform anchored_opts)
    as [[v log]|e] eqn:Hc; [|vm_compute in Hc; discriminate].
  pose proof (geospatial_view_is_centered anchored_platform anchored_opts
                v log Hc) as Hv.
  assert (Hg : Viewport.isGeospatial v = true)
    by (vm_compute in Hc; injection Hc as <- _; reflexivity).
  rewrite Hg in Hv. destruct Hv as (c & Hcen & Hv).
  exists v, log, c. split; [reflexivity|]. split; [exact Hcen|].
  split; [|exact Hv].
  vm_compute in Hc. injection Hc as <- _. vm_compute in Hcen.
  injection Hcen as <-. vm_compute. reflexivity.
Defined.

Lemma unproject_then_project_witness :
  exists v log coord0 coord1 r,
    Viewport.constructor Exact.platform exact_opts = Return (v, log) /\
    ray v (XYZ 1 1 1) true = Some (coord0, coord1) /\
    v4_2 coord0 <> v4_2 coord1 /\
    Viewport.unproject v (XYZ 1 1 1) true = Return (Some r) /\
    Viewport.project v (XYZ (coord_0 r) (coord_1 r) 1) true =
      Return (XYZ 1 1 0).
Proof.
  destruct (Viewport.constructor Exact.platform exact_opts)
    as [[v log]|e] eqn:Hc; [|vm_compute in Hc; discriminate].
  destruct (ray v (XYZ 1 1 1) true) as [[coord0 coord1]|] eqn:Hray;
    [|vm_compute in Hc; injection Hc as <- _; vm_compute in Hray;
      discriminate].
  assert (Hz : v4_2 coord0 <> v4_2 coord1).
  { vm_compute in Hc. injection Hc as <- _. vm_compute in Hray.
    injection Hray as <- <-. apply Qc_neq_by_value. vm_compute.
    discriminate. }
  destruct (unproject_then_project Exact.platform exact_opts v log
              (XYZ 1 1 1) true coord0 coord1 Hc Hray Hz) as (r & Hr & Hq).
  exists v, log, coord0, coord1, r.
  split; [reflexivity|]. split; [exact Hray|]. split; [exact Hz|].
  split; [exact Hr|].
  destruct (Viewport.project v (XYZ (coord_0 r) (coord_1 r) 1) true)
    as [q|e] eqn:Hp.
  - rewrite (Hq q Hp). reflexivity.
  - vm_compute in Hc. injection Hc as <- _. vm_compute in Hr.
    injection Hr as <-. vm_compute in Hp. discriminate.
Defined.

Lemma unproject_reaches_target_depth_witness :
  exists v log coord0 coord1 t r,
    Viewport.constructor Exact.platform exact_opts = Return (v, log) /\
    ray v (XYZ 1 1 1) false = Some (coord0, coord1) /\
    Viewport.unproject v (XYZ 1 1 1) false = Return (Some r) /\
    coord_0 r = v4_0 coord0 + t * (v4_0 coord1 - v4_0 coord0) /\
    coord_1 r = v4_1 coord0 + t * (v4_1 coord1 - v4_1 coord0) /\
    1 = v4_2 coord0 + t * (v4_2 coord1 - v4_2 coord0).
Proof.
  destruct (Viewport.constructor Exact.platform exact_opts)
    as [[v log]|e] eqn:Hc; [|vm_compute in Hc; discriminate].
  destruct (ray v (XYZ 1 1 1) false) as [[coord0 coord1]|] eqn:Hray;
    [|vm_compute in Hc; injection Hc as <- _; vm_compute in Hray;
      discriminate].
  assert (Hz : v4_2 coord0 <> v4_2 coord1).
  { vm_compute in Hc. injection Hc as <- _. vm_compute in Hray.
    injection Hray as <- <-. apply Qc_neq_by_value. vm_compute.
    discriminate. }
  destruct (unproject_reaches_target_depth v (XYZ 1 1 1) false coord0 coord1
              Hray Hz) as (t & r & Hr & Hx & Hy & Hd).
  exists v, log, coord0, coord1, t, r.
  split; [reflexivity|]. split; [exact Hray|].
  split; [exact Hr|]. split; [exact Hx|]. split; [exact Hy|exact Hd].
Defined.

Lemma unprojection_matrix_exists_iff_witness :
  exists v log,
    Viewport.constructor Exact.platform flat_opts = Return (v, log) /\
    mat4_invert (Viewport.viewProjectionMatrix v) = None /\
    Viewport.pixelUnprojectionMatrix v = None.
Proof.
  destruct (Viewport.constructor Exact.platform flat_opts)
    as [[v log]|e] eqn:Hc; [|vm_compute in Hc; discriminate].
  exists v, log. split; [reflexivity|].
  assert (Hs : mat4_invert (Viewport.viewProjectionMatrix v) = None)
    by (vm_compute in Hc; injection Hc as <- _; vm_compute; reflexivity).
  split; [exact Hs|].
  exact (proj2 (unprojection_matrix_exists_iff Exact.platform flat_opts v log
                  Hc) Hs).
Defined.

End Instances.
